(** * Parity wallet front-end: list/detail views, the Loading spinner and
      the ShapeShift mock helpers, as a shallow embedding.

    Sources embedded here:
    - views/Accounts/accounts.js          (Module [Accounts])
    - views/Addresses/addresses.js        (Module [Addresses])
    - views/Contracts/contracts.js        (Module [Contracts])
    - ui/Loading/loading.js               (Module [Loading])
    - 3rdparty/shapeshift/helpers.spec.js (Module [Helpers])

    A React component instance is a pair of [this.props] and [this.state];
    its methods are computations over the instance (a small state monad);
    [render] returns an element tree whose attributes hold the bound
    handlers themselves, so that "the button's handler" and "the dialog's
    close callback" are read off the rendered tree.

    Not in the sources, and modelled or taken as parameters: the CSS
    modules ([styles], a parameter of each view), the state provider
    behind [state.personal] (Module [Store]), the HTTP mocking library
    (Module [Nock]) and the ShapeShift endpoint ([ENDPOINT], a parameter).
    [mapDispatchToProps] binds an empty set of action creators in every
    view and so adds no prop. *)

From Stdlib Require Import PrimFloat.
From stdpp Require Import gmap strings list relations.

Set Default Proof Using "Type".
Local Set Warnings "-register-all".

(** ** JavaScript values that the views only pass along *)

(** Plain data objects (account records, balances, mock replies). *)
Inductive Json : Type :=
| JNull
| JBool (b : bool)
| JNum (x : float)
| JStr (s : string)
| JObj (fields : list (string * Json)).

(** A collection keyed by address ([PropTypes.object]). *)
Abbreviation Collection := (gmap string Json).

(** [Object.keys(o)]. *)
Definition keys (o : Collection) : list string := (map_to_list o).*1.

(** ** React element trees *)

(** The element types the four components instantiate: the DOM [div], the
    imports from [../../ui], [material-ui], [./List] and [../../modals]. *)
Inductive Component : Type :=
| div | Actionbar | Button | Page | Tooltip | List | ContentAdd
| CircularProgress
| CreateAccount | AddAddress | AddContract | DeployContract.

Global Instance Component_eq_dec : EqDecision Component.
Proof. solve_decision. Defined.

(** The components imported from [../../modals]. *)
Definition isModal (c : Component) : bool :=
  match c with
  | CreateAccount | AddAddress | AddContract | DeployContract => true
  | _ => false
  end.

(** What a JSX expression evaluates to. [F] is the type of the callbacks
    stored in attributes. *)
Inductive Value (F : Type) : Type :=
| VNull
| VBool (b : bool)
| VNum (x : float)
| VStr (s : string)
| VObj (o : Collection)
| VFun (f : F)
| VArr (vs : list (Value F))
| VElem (type : Component) (attrs : list (string * Value F))
        (children : list (Value F)).
Arguments VNull {F}.
Arguments VBool {F} b.
Arguments VNum {F} x.
Arguments VStr {F} s.
Arguments VObj {F} o.
Arguments VFun {F} f.
Arguments VArr {F} vs.
Arguments VElem {F} type attrs children.

Section Tree.
Context {F : Type}.

(** Every element of a tree, outermost first; elements held in
    attributes (icons, the [buttons] array) are part of the tree. *)
Fixpoint elements (v : Value F) : list (Value F) :=
  match v with
  | VElem _ attrs children =>
      v :: flat_map (fun '(_, a) => elements a) attrs
        ++ flat_map elements children
  | VArr vs => flat_map elements vs
  | _ => []
  end.

Definition typeOf (v : Value F) : option Component :=
  match v with VElem c _ _ => Some c | _ => None end.

(** [e.props[name]]. *)
Definition attr (name : string) (e : Value F) : option (Value F) :=
  match e with
  | VElem _ attrs _ =>
      snd <$> List.find (fun kv => String.eqb (fst kv) name) attrs
  | _ => None
  end.

Definition instancesOf (c : Component) (t : Value F) : list (Value F) :=
  List.filter (fun e => bool_decide (typeOf e = Some c)) (elements t).

(** The modal dialogs of a render tree. *)
Definition modals (t : Value F) : list (Value F) :=
  List.filter
    (fun e => match typeOf e with Some c => isModal c | None => false end)
    (elements t).

Definition attrsNamed (name : string) (es : list (Value F)) : list (Value F) :=
  omap (attr name) es.

Definition funs (vs : list (Value F)) : list F :=
  omap (fun v => match v with VFun f => Some f | _ => None end) vs.

(** Handlers wired to the buttons, and callbacks handed to the dialogs. *)
Definition onClicks (t : Value F) : list F :=
  funs (attrsNamed "onClick" (instancesOf Button t)).
Definition onCloses (t : Value F) : list F :=
  funs (attrsNamed "onClose" (modals t)).
Definition onUpdates (t : Value F) : list F :=
  funs (attrsNamed "onUpdate" (modals t)).

(** Every callback a tree hands out. *)
Definition callbacks (t : Value F) : list F :=
  flat_map
    (fun e => match e with
              | VElem _ attrs _ => funs (attrs.*2)
              | _ => []
              end)
    (elements t).
End Tree.

(** ** Component instances and their methods *)

Record Instance (P S : Type) : Type := { props : P; state : S }.
Arguments props {P S} _.
Arguments state {P S} _.

(** A method runs against [this] and may replace its state. *)
Definition Method (P S A : Type) : Type := Instance P S -> A * Instance P S.

Global Instance Method_ret {P S} : MRet (Method P S) :=
  fun A a this => (a, this).
Global Instance Method_bind {P S} : MBind (Method P S) :=
  fun A B f m this => let '(a, this') := m this in f a this'.

Section Methods.
Context {P S : Type}.

Definition this : Method P S (Instance P S) := fun i => (i, i).

(** [this.setState(partial)]: the keys of [partial] are merged into the
    state; [assign] writes those keys and keeps the others. *)
Definition setState (assign : S -> S) : Method P S unit :=
  fun i => (tt, {| props := props i; state := assign (state i) |}).

Definition eval {A} (m : Method P S A) (i : Instance P S) : A := fst (m i).
Definition exec {A} (m : Method P S A) (i : Instance P S) : Instance P S :=
  snd (m i).

(** Handlers delivered one after the other by the UI runtime. *)
Definition deliver (hs : list (Method P S unit)) (i : Instance P S)
  : Instance P S :=
  fold_left (fun j h => exec h j) hs i.

(** A view instance as it evolves: the runtime invokes a callback that
    the current render handed out, or the store supplies new props. *)
Inductive step (render : Method P S (Value (Method P S unit)))
  : relation (Instance P S) :=
| step_callback i f :
    In f (callbacks (eval render i)) -> step render i (exec f i)
| step_props i p :
    step render i {| props := p; state := state i |}.
End Methods.

(** ** The slices of the global store that [mapStateToProps] reads *)

Module Store.
(** [state.personal] *)
Record Personal : Type :=
  { accounts : Collection; hasAccounts : bool;
    contacts : Collection; hasContacts : bool;
    contracts : Collection; hasContracts : bool }.

(** [state.balances] *)
Module Balances.
Record t : Type := { balances : Collection }.
End Balances.

Record State : Type := { personal : Personal; balances : Balances.t }.

(** Modelled from the spec: the state provider that fills [state.personal]
    is not part of the sources. The spec describes the flag it supplies
    next to each collection as derived from it: "[isEmpty]: bool (derived:
    true when no entries exist)", supplied as "[isEmpty]/[hasX]". *)
Definition isEmpty (entries : Collection) : bool :=
  bool_decide (keys entries = []).

(** Modelled from the spec: [hasX] is the flag opposite to [isEmpty]. *)
Definition hasEntries (entries : Collection) : bool := negb (isEmpty entries).

(** Modelled from the spec: the store state the provider projects from
    the three collections and the balances. *)
Definition provide (accounts contacts contracts balances : Collection) : State :=
  {| personal :=
       {| accounts := accounts; hasAccounts := hasEntries accounts;
          contacts := contacts; hasContacts := hasEntries contacts;
          contracts := contracts; hasContracts := hasEntries contracts |};
     balances := {| Balances.balances := balances |} |}.
End Store.

(** ** views/Addresses/addresses.js *)

Module Addresses.
Section Addresses.
(** [import styles from './addresses.css'] *)
Variable styles : string -> string.

Record Props : Type :=
  { balances : Collection; contacts : Collection; hasContacts : bool }.

Record State : Type := { showAdd : bool }.

Definition Handler : Type := Method Props State unit.
Definition Element : Type := Value Handler.

(** [state = { showAdd: false }] *)
Definition initialState : State := {| showAdd := false |}.

Definition mount (p : Props) : Instance Props State :=
  {| props := p; state := initialState |}.

Definition onOpenAdd : Handler :=
  setState (fun _ => {| showAdd := true |}).

Definition onCloseAdd : Handler :=
  setState (fun _ => {| showAdd := false |}).

Definition renderActionbar : Method Props State Element :=
  let buttons :=
    [ VElem Button
        [ ("key", VStr "newAddress");
          ("icon", VElem ContentAdd [] []);
          ("label", VStr "new address");
          ("onClick", VFun onOpenAdd) ] [] ] in
  mret (VElem Actionbar
          [ ("className", VStr (styles "toolbar"));
            ("title", VStr "Saved Addresses");
            ("buttons", VArr buttons) ] []).

Definition renderAddAddress : Method Props State Element :=
  i ← this;
  let contacts := contacts (props i) in
  let showAdd := showAdd (state i) in
  if negb showAdd then mret VNull
  else
    mret (VElem AddAddress
            [ ("contacts", VObj contacts);
              ("onClose", VFun onCloseAdd) ] []).

Definition render : Method Props State Element :=
  i ← this;
  let balances := balances (props i) in
  let contacts := contacts (props i) in
  let hasContacts := hasContacts (props i) in
  actionbar ← renderActionbar;
  addAddress ← renderAddAddress;
  mret (VElem div
          [ ("className", VStr (styles "addresses")) ]
          [ actionbar;
            addAddress;
            VElem Page []
              [ VElem List
                  [ ("link", VStr "address");
                    ("accounts", VObj contacts);
                    ("balances", VObj balances);
                    ("empty", VBool (negb hasContacts)) ] [] ] ]).

Definition mapStateToProps (st : Store.State) : Props :=
  let balances := Store.Balances.balances (Store.balances st) in
  let contacts := Store.contacts (Store.personal st) in
  let hasContacts := Store.hasContacts (Store.personal st) in
  {| balances := balances; contacts := contacts; hasContacts := hasContacts |}.
End Addresses.
End Addresses.

(** ** views/Accounts/accounts.js *)

Module Accounts.
Section Accounts.
(** [import styles from './accounts.css'] *)
Variable styles : string -> string.

Record Props : Type :=
  { accounts : Collection; hasAccounts : bool; balances : Collection }.

Record State : Type := { addressBook : bool; newDialog : bool }.

Definition Handler : Type := Method Props State unit.
Definition Element : Type := Value Handler.

(** [state = { addressBook: false, newDialog: false }] *)
Definition initialState : State :=
  {| addressBook := false; newDialog := false |}.

Definition mount (p : Props) : Instance Props State :=
  {| props := p; state := initialState |}.

Definition onNewAccountClick : Handler :=
  i ← this;
  setState (fun s => {| addressBook := addressBook s;
                        newDialog := negb (newDialog (state i)) |}).

Definition onNewAccountClose : Handler :=
  _ ← onNewAccountClick; mret tt.

Definition onNewAccountUpdate : Handler := mret tt.

Definition renderActionbar : Method Props State Element :=
  let buttons :=
    [ VElem Button
        [ ("key", VStr "newAccount");
          ("icon", VElem ContentAdd [] []);
          ("label", VStr "new account");
          ("onClick", VFun onNewAccountClick) ] [] ] in
  mret (VElem Actionbar
          [ ("className", VStr (styles "toolbar"));
            ("title", VStr "Accounts Overview");
            ("buttons", VArr buttons) ]
          [ VElem Tooltip
              [ ("className", VStr (styles "toolbarTooltip"));
                ("right", VBool true);
                ("text", VStr "actions relating to the current view are available on the toolbar for quick access, be it for performing actions or creating a new item") ]
              [] ]).

Definition renderNewDialog : Method Props State Element :=
  i ← this;
  let accounts := accounts (props i) in
  let newDialog := newDialog (state i) in
  if negb newDialog then mret VNull
  else
    mret (VElem CreateAccount
            [ ("accounts", VObj accounts);
              ("onClose", VFun onNewAccountClose);
              ("onUpdate", VFun onNewAccountUpdate) ] []).

Definition render : Method Props State Element :=
  i ← this;
  let accounts := accounts (props i) in
  let hasAccounts := hasAccounts (props i) in
  let balances := balances (props i) in
  newDialog ← renderNewDialog;
  actionbar ← renderActionbar;
  mret (VElem div
          [ ("className", VStr (styles "accounts")) ]
          [ newDialog;
            actionbar;
            VElem Page []
              [ VElem List
                  [ ("accounts", VObj accounts);
                    ("balances", VObj balances);
                    ("empty", VBool (negb hasAccounts)) ] [];
                VElem Tooltip
                  [ ("className", VStr (styles "accountTooltip"));
                    ("text", VStr "your accounts are visible for easy access, allowing you to edit the meta information, make transfers, view transactions and fund the account") ]
                  [] ] ]).

Definition mapStateToProps (st : Store.State) : Props :=
  let accounts := Store.accounts (Store.personal st) in
  let hasAccounts := Store.hasAccounts (Store.personal st) in
  let balances := Store.Balances.balances (Store.balances st) in
  {| accounts := accounts; hasAccounts := hasAccounts; balances := balances |}.
End Accounts.
End Accounts.

(** ** views/Contracts/contracts.js *)

Module Contracts.
Section Contracts.
(** [import styles from './contracts.css'] *)
Variable styles : string -> string.

Record Props : Type :=
  { balances : Collection; accounts : Collection;
    contracts : Collection; hasContracts : bool }.

Record State : Type := { addContract : bool; deployContract : bool }.

Definition Handler : Type := Method Props State unit.
Definition Element : Type := Value Handler.

(** [state = { addContract: false, deployContract: false }] *)
Definition initialState : State :=
  {| addContract := false; deployContract := false |}.

Definition mount (p : Props) : Instance Props State :=
  {| props := p; state := initialState |}.

Definition onDeployContractClose : Handler :=
  setState (fun s => {| addContract := addContract s; deployContract := false |}).

Definition onDeployContract : Handler :=
  setState (fun s => {| addContract := addContract s; deployContract := true |}).

Definition onAddContractClose : Handler :=
  setState (fun s => {| addContract := false; deployContract := deployContract s |}).

Definition onAddContract : Handler :=
  setState (fun s => {| addContract := true; deployContract := deployContract s |}).

Definition renderActionbar : Method Props State Element :=
  let buttons :=
    [ VElem Button
        [ ("key", VStr "addContract");
          ("icon", VElem ContentAdd [] []);
          ("label", VStr "watch contract");
          ("onClick", VFun onAddContract) ] [];
      VElem Button
        [ ("key", VStr "deployContract");
          ("icon", VElem ContentAdd [] []);
          ("label", VStr "deploy contract");
          ("onClick", VFun onDeployContract) ] [] ] in
  mret (VElem Actionbar
          [ ("className", VStr (styles "toolbar"));
            ("title", VStr "Contracts");
            ("buttons", VArr buttons) ] []).

Definition renderAddContract : Method Props State Element :=
  i ← this;
  let contracts := contracts (props i) in
  let addContract := addContract (state i) in
  if negb addContract then mret VNull
  else
    mret (VElem AddContract
            [ ("contracts", VObj contracts);
              ("onClose", VFun onAddContractClose) ] []).

Definition renderDeployContract : Method Props State Element :=
  i ← this;
  let accounts := accounts (props i) in
  let deployContract := deployContract (state i) in
  if negb deployContract then mret VNull
  else
    mret (VElem DeployContract
            [ ("accounts", VObj accounts);
              ("onClose", VFun onDeployContractClose) ] []).

(** The source calls [this.renderAddContract()] twice in a row. *)
Definition render : Method Props State Element :=
  i ← this;
  let contracts := contracts (props i) in
  let hasContracts := hasContracts (props i) in
  let balances := balances (props i) in
  actionbar ← renderActionbar;
  addContract1 ← renderAddContract;
  addContract2 ← renderAddContract;
  deployContract ← renderDeployContract;
  mret (VElem div
          [ ("className", VStr (styles "contracts")) ]
          [ actionbar;
            addContract1;
            addContract2;
            deployContract;
            VElem Page []
              [ VElem List
                  [ ("link", VStr "contract");
                    ("accounts", VObj contracts);
                    ("balances", VObj balances);
                    ("empty", VBool (negb hasContracts)) ] [] ] ]).

Definition mapStateToProps (st : Store.State) : Props :=
  let accounts := Store.accounts (Store.personal st) in
  let contracts := Store.contracts (Store.personal st) in
  let hasContracts := Store.hasContracts (Store.personal st) in
  let balances := Store.Balances.balances (Store.balances st) in
  {| accounts := accounts; contracts := contracts;
     hasContracts := hasContracts; balances := balances |}.
End Contracts.
End Contracts.

(** ** ui/Loading/loading.js *)

Module Loading.
Section Loading.
(** [import styles from './loading.css'] *)
Variable styles : string -> string.

(** The props the function component receives. *)
Record Props : Type :=
  { className : string; size : float; thickness : float }.

(** The attributes a caller writes on [<Loading ... />]; each may be
    left out ([undefined]). *)
Record Given : Type :=
  { givenClassName : option string;
    givenSize : option float;
    givenThickness : option float }.

Definition noProps : Given :=
  {| givenClassName := None; givenSize := None; givenThickness := None |}.

Definition Loading {F} (p : Props) : Value F :=
  VElem div
    [ ("className", VStr (String.concat " " [ styles "loading"; className p ])) ]
    [ VElem CircularProgress
        [ ("size", VNum (size p * 60)%float);
          ("thickness", VNum (thickness p)) ] [] ].

Definition defaultProps : Props :=
  {| className := ""; size := 2%float; thickness := 3.5%float |}.

(** React fills every attribute left [undefined] from [defaultProps]
    before it calls the component. *)
Definition resolveDefaults (g : Given) : Props :=
  {| className := default (className defaultProps) (givenClassName g);
     size := default (size defaultProps) (givenSize g);
     thickness := default (thickness defaultProps) (givenThickness g) |}.

Definition createElement {F} (g : Given) : Value F :=
  Loading (resolveDefaults g).
End Loading.
End Loading.

(** ** The HTTP mocking library used by the helper *)

(** Modelled from the spec: the mocking library ([nock]) is a third-party
    collaborator. The spec describes it as registering "mocked GET/POST
    responses against a fixed base endpoint" in "a composed mock scope";
    a request to the endpoint is answered by the first registered
    response with its verb and path, with the registered status code and
    the value the reply function returns. *)
Module Nock.
Inductive Verb : Type := GET | POST.

Global Instance Verb_eq_dec : EqDecision Verb.
Proof. solve_decision. Defined.

(** A property added to the scope object by its user ([scope.body]):
    [undefined] until first written. *)
Definition Expando : Type := option Collection.

(** A reply function [(uri, requestBody) => reply]; it may write the
    scope's expando. *)
Definition ReplyFn : Type := string -> Json -> Expando -> Json * Expando.

Record Interceptor : Type :=
  { verb : Verb; uri : string; statusCode : Z; replyFn : ReplyFn }.

Record Scope : Type :=
  { basePath : string; interceptors : list Interceptor; body : Expando }.

(** [scope.get(uri)] / [scope.post(uri)]: an interceptor awaiting its reply. *)
Record Pending : Type :=
  { scope : Scope; pendingVerb : Verb; pendingUri : string }.

Definition nock (basePath : string) : Scope :=
  {| basePath := basePath; interceptors := []; body := None |}.

Definition get (uri : string) (s : Scope) : Pending :=
  {| scope := s; pendingVerb := GET; pendingUri := uri |}.

Definition post (uri : string) (s : Scope) : Pending :=
  {| scope := s; pendingVerb := POST; pendingUri := uri |}.

(** [.reply(code, fn)] registers the interceptor and returns the scope. *)
Definition reply (code : Z) (fn : ReplyFn) (p : Pending) : Scope :=
  let s := scope p in
  {| basePath := basePath s;
     interceptors :=
       interceptors s ++
         [ {| verb := pendingVerb p; uri := pendingUri p;
              statusCode := code; replyFn := fn |} ];
     body := body s |}.

Record Request : Type :=
  { method : Verb; host : string; path : string; payload : Json }.

Record Response : Type := { status : Z; data : Json }.

Definition matches (s : Scope) (r : Request) (i : Interceptor) : bool :=
  bool_decide (verb i = method r)
  && String.eqb (basePath s) (host r)
  && String.eqb (uri i) (path r).

(** The first interceptor that matches, and the others in order. *)
Fixpoint take (s : Scope) (r : Request) (ics : list Interceptor)
  : option (Interceptor * list Interceptor) :=
  match ics with
  | [] => None
  | i :: rest =>
      if matches s r i then Some (i, rest)
      else '(j, rest') ← take s r rest; Some (j, i :: rest')
  end.

(** Serving a request consumes the interceptor; [None] when nothing
    matches. *)
Definition serve (r : Request) (s : Scope) : option (Response * Scope) :=
  '(i, rest) ← take s r (interceptors s);
  let '(answer, expando) := replyFn i (path r) (payload r) (body s) in
  Some ({| status := statusCode i; data := answer |},
        {| basePath := basePath s; interceptors := rest; body := expando |}).
End Nock.

(** ** 3rdparty/shapeshift/helpers.spec.js *)

Module Helpers.
Section Helpers.
(** [rpc.ENDPOINT], from the ShapeShift client. *)
Variable ENDPOINT : string.

(** A request descriptor [{ path, code?, reply }]. *)
Record Descriptor : Type :=
  { path : string; code : option Z; reply : Json }.

(** [request.code || 200]: a missing code and [0] are both falsy. *)
Definition codeOrDefault (code : option Z) : Z :=
  match code with
  | Some c => if (c =? 0)%Z then 200%Z else c
  | None => 200%Z
  end.

Definition mockget (requests : list Descriptor) : Nock.Scope :=
  fold_left
    (fun scope request =>
       Nock.reply (codeOrDefault (code request))
         (fun _ _ expando => (reply request, expando))
         (Nock.get ("/" +:+ path request) scope))
    requests (Nock.nock ENDPOINT).

Definition mockpost (requests : list Descriptor) : Nock.Scope :=
  fold_left
    (fun scope request =>
       Nock.reply (codeOrDefault (code request))
         (fun _ body expando =>
            let recorded := default ∅ expando in
            (reply request, Some (<[path request := body]> recorded)))
         (Nock.post ("/" +:+ path request) scope))
    requests (Nock.nock ENDPOINT).
End Helpers.
End Helpers.

(** * Vocabulary of the properties *)

(** The [empty] attribute handed to the list-rendering collaborator. *)
Definition emptyFlags {F} (t : Value F) : list (Value F) :=
  attrsNamed "empty" (instancesOf List t).

(** [e] is the dialog [c], and its collection attribute [name] holds
    [entries]. *)
Definition dialogWith {F} (c : Component) (name : string)
    (entries : Collection) (e : Value F) : Prop :=
  typeOf e = Some c /\ attr name e = Some (VObj entries).

(** Case analysis on the flags of an instance, then evaluation. *)
Ltac flags i :=
  destruct i as [? [? ?]] || destruct i as [? [?]];
  repeat match goal with b : bool |- _ => destruct b end.

(** Concrete inputs used where a statement is checked at an instance. *)
Module Sample.
(** A CSS module that maps every class name to itself. *)
Definition css : string -> string := fun class => class.

Definition entries : Collection :=
  {[ "0x00a329c0648769a73afac7f9381e08fb43dbea72" :=
       JObj [ ("name", JStr "main") ] ]}.

Definition accountsProps : Accounts.Props :=
  {| Accounts.accounts := entries; Accounts.hasAccounts := true;
     Accounts.balances := ∅ |}.

Definition contractsProps : Contracts.Props :=
  {| Contracts.balances := ∅; Contracts.accounts := entries;
     Contracts.contracts := ∅; Contracts.hasContracts := false |}.

Definition addressesProps : Addresses.Props :=
  {| Addresses.balances := ∅; Addresses.contacts := entries;
     Addresses.hasContacts := true |}.
End Sample.

(** The state transitions as the spec words them, for one button and its
    dialog: in every view state the button's handler leaves [flag] true
    and the dialog's close callback leaves it false. *)
Definition opensAndCloses {P S} (press close : Method P S unit)
    (flag : S -> bool) : Prop :=
  forall i : Instance P S,
    flag (state (exec press i)) = true /\
    flag (state (exec close i)) = false.

(** The claim as the spec words it, for one button and its dialog [c]:
    after one or more presses from the mounted state, the render under
    the current props [q] holds exactly one modal, it is [c], and its
    collection attribute [name] is the current collection. *)
Definition opensExactlyOne {P St}
    (render : Method P St (Value (Method P St unit)))
    (mount : P -> Instance P St) (press : Method P St unit)
    (c : Component) (name : string) (entries : P -> Collection) : Prop :=
  forall (p q : P) (n : nat), exists e,
    modals (eval render
              {| props := q;
                 state := state (deliver (repeat press (S n)) (mount p)) |})
      = [ e ] /\
    dialogWith c name (entries q) e.

(** The two dialogs of the Contracts view. *)
Inductive ContractsDialog : Type := Watch | Deploy.

Definition ContractsDialog_eqb (a b : ContractsDialog) : bool :=
  match a, b with
  | Watch, Watch | Deploy, Deploy => true
  | _, _ => false
  end.

(** The handler of the button that opens each. *)
Definition openContractsDialog (d : ContractsDialog) : Contracts.Handler :=
  match d with
  | Watch => Contracts.onAddContract
  | Deploy => Contracts.onDeployContract
  end.

Definition opened (d : ContractsDialog) (ds : list ContractsDialog) : bool :=
  existsb (ContractsDialog_eqb d) ds.

(** The claim as the spec words it, for one close callback: from every
    reachable instance, invoking it leaves no modal rendered. *)
Definition closeLeavesNoModal {P St}
    (render : Method P St (Value (Method P St unit)))
    (mount : P -> Instance P St) (close : Method P St unit) : Prop :=
  forall (p : P) (i : Instance P St),
    rtc (step render) (mount p) i ->
    modals (eval render (exec close i)) = [].

(** The Contracts view with both buttons pressed, in that order. *)
Definition bothOpen : Instance Contracts.Props Contracts.State :=
  deliver [ Contracts.onAddContract; Contracts.onDeployContract ]
    (Contracts.mount Sample.contractsProps).

(** The interceptor that [mockget], and the one that [mockpost], registers
    for a descriptor. *)
Definition registeredGet (d : Helpers.Descriptor) : Nock.Interceptor :=
  {| Nock.verb := Nock.GET;
     Nock.uri := "/" +:+ Helpers.path d;
     Nock.statusCode := Helpers.codeOrDefault (Helpers.code d);
     Nock.replyFn := fun _ _ expando => (Helpers.reply d, expando) |}.

Definition registeredPost (d : Helpers.Descriptor) : Nock.Interceptor :=
  {| Nock.verb := Nock.POST;
     Nock.uri := "/" +:+ Helpers.path d;
     Nock.statusCode := Helpers.codeOrDefault (Helpers.code d);
     Nock.replyFn :=
       fun _ body expando =>
         (Helpers.reply d,
          Some (<[Helpers.path d := body]> (default ∅ expando))) |}.

(** ** User events *)

(** What a user can do in the Contracts view: press either button of the
    action bar, or close either dialog. *)
Inductive ContractsEvent : Type :=
| PressWatch | CloseWatch | PressDeploy | CloseDeploy.

(** The handler [render] wires to each: the buttons' [onClick], the
    dialogs' [onClose]. *)
Definition contractsHandler (e : ContractsEvent) : Contracts.Handler :=
  match e with
  | PressWatch => Contracts.onAddContract
  | CloseWatch => Contracts.onAddContractClose
  | PressDeploy => Contracts.onDeployContract
  | CloseDeploy => Contracts.onDeployContractClose
  end.

(** The dialog an event is about, and whether it opens it. *)
Definition contractsEventDialog (e : ContractsEvent) : ContractsDialog :=
  match e with
  | PressWatch | CloseWatch => Watch
  | PressDeploy | CloseDeploy => Deploy
  end.

Definition contractsEventOpens (e : ContractsEvent) : bool :=
  match e with
  | PressWatch | PressDeploy => true
  | CloseWatch | CloseDeploy => false
  end.

(** Whether the last event of [es] about dialog [d] opened it; [None]
    when no event of [es] is about [d]. *)
Definition lastAbout (d : ContractsDialog) (es : list ContractsEvent)
  : option bool :=
  last (omap (fun e => if ContractsDialog_eqb d (contractsEventDialog e)
                       then Some (contractsEventOpens e) else None) es).

(** The Addresses view: press 'new address', or close the dialog. *)
Inductive AddressesEvent : Type := PressNewAddress | CloseAddAddress.

Definition addressesHandler (e : AddressesEvent) : Addresses.Handler :=
  match e with
  | PressNewAddress => Addresses.onOpenAdd
  | CloseAddAddress => Addresses.onCloseAdd
  end.

Definition addressesEventOpens (e : AddressesEvent) : bool :=
  match e with PressNewAddress => true | CloseAddAddress => false end.

(** The Accounts view: press 'new account', or the dialog reports a close
    or an update. *)
Inductive AccountsEvent : Type :=
| PressNewAccount | CloseCreateAccount | UpdateCreateAccount.

Definition accountsHandler (e : AccountsEvent) : Accounts.Handler :=
  match e with
  | PressNewAccount => Accounts.onNewAccountClick
  | CloseCreateAccount => Accounts.onNewAccountClose
  | UpdateCreateAccount => Accounts.onNewAccountUpdate
  end.

(** The events other than the dialog's update. *)
Definition accountsEventInverts (e : AccountsEvent) : bool :=
  match e with UpdateCreateAccount => false | _ => true end.

(** ** Used mock scopes *)

(** A scope of [mockpost] after some requests were served: the
    interceptors of the descriptors [ds] are left, and [recorded] is what
    [scope.body] holds. *)
Definition postScope (ENDPOINT : string) (ds : list Helpers.Descriptor)
    (recorded : Nock.Expando) : Nock.Scope :=
  {| Nock.basePath := ENDPOINT;
     Nock.interceptors := map registeredPost ds;
     Nock.body := recorded |}.

(** The answer a descriptor gives. *)
Definition answerOf (d : Helpers.Descriptor) : Nock.Response :=
  {| Nock.status := Helpers.codeOrDefault (Helpers.code d);
     Nock.data := Helpers.reply d |}.

(** A GET, and a POST with a body, of a descriptor's path. *)
Definition getOf (ENDPOINT : string) (d : Helpers.Descriptor) : Nock.Request :=
  {| Nock.method := Nock.GET; Nock.host := ENDPOINT;
     Nock.path := "/" +:+ Helpers.path d; Nock.payload := JNull |}.

Definition postOf (ENDPOINT : string) (d : Helpers.Descriptor) (body : Json)
  : Nock.Request :=
  {| Nock.method := Nock.POST; Nock.host := ENDPOINT;
     Nock.path := "/" +:+ Helpers.path d; Nock.payload := body |}.

(** * Properties *)

(** ** Delivering handlers in sequence *)

Lemma deliver_cons {P S} (h : Method P S unit) hs (i : Instance P S) :
  deliver (h :: hs) i = deliver hs (exec h i).
Proof. reflexivity. Qed.

Lemma deliver_app {P S} (hs hs' : list (Method P S unit)) (i : Instance P S) :
  deliver (hs ++ hs') i = deliver hs' (deliver hs i).
Proof. apply fold_left_app. Qed.

(** ** What each view renders, by flag *)

Lemma Accounts_modals styles (i : Instance Accounts.Props Accounts.State) :
  modals (eval (Accounts.render styles) i) =
    if Accounts.newDialog (state i)
    then [ VElem CreateAccount
             [ ("accounts", VObj (Accounts.accounts (props i)));
               ("onClose", VFun Accounts.onNewAccountClose);
               ("onUpdate", VFun Accounts.onNewAccountUpdate) ] [] ]
    else [].
Proof. flags i; reflexivity. Qed.

Lemma Accounts_onCloses styles (i : Instance Accounts.Props Accounts.State) :
  onCloses (eval (Accounts.render styles) i) =
    if Accounts.newDialog (state i) then [ Accounts.onNewAccountClose ] else [].
Proof. flags i; reflexivity. Qed.

Lemma Addresses_modals styles (i : Instance Addresses.Props Addresses.State) :
  modals (eval (Addresses.render styles) i) =
    if Addresses.showAdd (state i)
    then [ VElem AddAddress
             [ ("contacts", VObj (Addresses.contacts (props i)));
               ("onClose", VFun Addresses.onCloseAdd) ] [] ]
    else [].
Proof. flags i; reflexivity. Qed.

Lemma Contracts_deploy_dialogs styles (i : Instance Contracts.Props Contracts.State) :
  instancesOf DeployContract (eval (Contracts.render styles) i) =
    if Contracts.deployContract (state i)
    then [ VElem DeployContract
             [ ("accounts", VObj (Contracts.accounts (props i)));
               ("onClose", VFun Contracts.onDeployContractClose) ] [] ]
    else [].
Proof. flags i; reflexivity. Qed.

(** The source's two consecutive [renderAddContract] calls put the dialog
    into the tree twice. *)
Lemma Contracts_add_dialogs_twice styles (i : Instance Contracts.Props Contracts.State) :
  let dialog :=
    VElem AddContract
      [ ("contracts", VObj (Contracts.contracts (props i)));
        ("onClose", VFun Contracts.onAddContractClose) ] [] in
  instancesOf AddContract (eval (Contracts.render styles) i) =
    if Contracts.addContract (state i) then [ dialog; dialog ] else [].
Proof. flags i; reflexivity. Qed.

Lemma Contracts_add_dialogs styles (i : Instance Contracts.Props Contracts.State) e :
  In e (instancesOf AddContract (eval (Contracts.render styles) i)) <->
  Contracts.addContract (state i) = true /\
  e = VElem AddContract
        [ ("contracts", VObj (Contracts.contracts (props i)));
          ("onClose", VFun Contracts.onAddContractClose) ] [].
Proof.
  rewrite Contracts_add_dialogs_twice.
  destruct (Contracts.addContract (state i)); simpl; intuition congruence.
Qed.

Lemma Contracts_modals styles (i : Instance Contracts.Props Contracts.State) :
  modals (eval (Contracts.render styles) i) =
    instancesOf AddContract (eval (Contracts.render styles) i)
      ++ instancesOf DeployContract (eval (Contracts.render styles) i).
Proof. flags i; reflexivity. Qed.

(** ** After mount *)

(** C4. In each of the three views the state created at mount has every
    flag false, and rendering it yields no modal element, whatever the
    props are. *)
Theorem mount_all_flags_false_no_modal :
  (forall styles p,
     Accounts.addressBook (state (Accounts.mount p)) = false /\
     Accounts.newDialog (state (Accounts.mount p)) = false /\
     modals (eval (Accounts.render styles) (Accounts.mount p)) = []) /\
  (forall styles p,
     Addresses.showAdd (state (Addresses.mount p)) = false /\
     modals (eval (Addresses.render styles) (Addresses.mount p)) = []) /\
  (forall styles p,
     Contracts.addContract (state (Contracts.mount p)) = false /\
     Contracts.deployContract (state (Contracts.mount p)) = false /\
     modals (eval (Contracts.render styles) (Contracts.mount p)) = []).
Proof. repeat split. Qed.

(** ** The emptiness flag *)

(** Whatever the props, each view hands the list collaborator the
    negation of its [hasX] prop. *)
Lemma empty_is_not_has :
  (forall styles i,
     emptyFlags (eval (Accounts.render styles) i) =
       [ VBool (negb (Accounts.hasAccounts (props i))) ]) /\
  (forall styles i,
     emptyFlags (eval (Addresses.render styles) i) =
       [ VBool (negb (Addresses.hasContacts (props i))) ]) /\
  (forall styles i,
     emptyFlags (eval (Contracts.render styles) i) =
       [ VBool (negb (Contracts.hasContracts (props i))) ]).
Proof. repeat split; intros; flags i; reflexivity. Qed.

Lemma isEmpty_zero_keys (entries : Collection) :
  Store.isEmpty entries = true <-> length (keys entries) = 0.
Proof.
  unfold Store.isEmpty. rewrite bool_decide_eq_true.
  split; [intros ->; reflexivity | apply length_zero_iff_nil].
Qed.

Lemma keys_size (entries : Collection) : length (keys entries) = size entries.
Proof. unfold keys. rewrite length_fmap. apply length_map_to_list. Qed.

(** C5. With the store filled by the state provider, each view in any
    view state hands the list collaborator exactly one [empty] flag, and
    that flag is true if and only if the entries collection it lists has
    zero keys. *)
Theorem empty_flag_iff_zero_keys :
  forall accounts contacts contracts balances : Collection,
    let st := Store.provide accounts contacts contracts balances in
    (forall styles s, exists b,
        emptyFlags (eval (Accounts.render styles)
                      {| props := Accounts.mapStateToProps st; state := s |})
          = [ VBool b ] /\
        (b = true <-> length (keys accounts) = 0)) /\
    (forall styles s, exists b,
        emptyFlags (eval (Addresses.render styles)
                      {| props := Addresses.mapStateToProps st; state := s |})
          = [ VBool b ] /\
        (b = true <-> length (keys contacts) = 0)) /\
    (forall styles s, exists b,
        emptyFlags (eval (Contracts.render styles)
                      {| props := Contracts.mapStateToProps st; state := s |})
          = [ VBool b ] /\
        (b = true <-> length (keys contracts) = 0)).
Proof.
  intros accounts contacts contracts balances st.
  destruct empty_is_not_has as (Hacc & Hadr & Hcon).
  repeat split; intros styles s; eexists;
    (split; [ first [ apply Hacc | apply Hadr | apply Hcon ] | ]);
    cbn; unfold Store.hasEntries; rewrite negb_involutive;
    apply isEmpty_zero_keys.
Qed.

(** ** Rendering twice *)

(** C7. In each view [render] leaves the instance (props and state) as
    it found it, and two instances with equal props and equal state
    render to the same tree; so a second [render] with no state change
    in between returns the same tree as the first. *)
Theorem render_twice_same_tree :
  (forall styles,
     (forall i, exec (Accounts.render styles) i = i) /\
     (forall i j, props i = props j -> state i = state j ->
        eval (Accounts.render styles) i = eval (Accounts.render styles) j)) /\
  (forall styles,
     (forall i, exec (Addresses.render styles) i = i) /\
     (forall i j, props i = props j -> state i = state j ->
        eval (Addresses.render styles) i = eval (Addresses.render styles) j)) /\
  (forall styles,
     (forall i, exec (Contracts.render styles) i = i) /\
     (forall i j, props i = props j -> state i = state j ->
        eval (Contracts.render styles) i = eval (Contracts.render styles) j)).
Proof.
  repeat split;
    first [ flags i; reflexivity
          | intros [p s] [q t]; simpl; intros -> ->; reflexivity ].
Qed.

(** Rendering the Addresses view again after its first render. *)
Lemma render_twice_same_tree_addresses :
  eval (Addresses.render Sample.css)
    (exec (Addresses.render Sample.css)
       (exec Addresses.onOpenAdd (Addresses.mount Sample.addressesProps)))
  = eval (Addresses.render Sample.css)
      (exec Addresses.onOpenAdd (Addresses.mount Sample.addressesProps)).
Proof.
  destruct render_twice_same_tree as (_ & Haddr & _).
  destruct (Haddr Sample.css) as [Hsame Hequal].
  apply Hequal; rewrite Hsame; reflexivity.
Defined.

(** ** Accounts: the update callback and the [addressBook] flag *)

(** C8. In the Accounts view the callback handed to the create-account
    dialog as [onUpdate] is [onNewAccountUpdate] (the dialog is rendered
    exactly when [newDialog] is set), and invoking it on any instance
    returns that instance unchanged: same props, same state. *)
Theorem onNewAccountUpdate_changes_nothing :
  (forall styles i,
     onUpdates (eval (Accounts.render styles) i) =
       if Accounts.newDialog (state i)
       then [ Accounts.onNewAccountUpdate ] else []) /\
  (forall i, Accounts.onNewAccountUpdate i = (tt, i)).
Proof. split; [ intros styles i; flags i | ]; reflexivity. Qed.

Lemma Accounts_callbacks styles (i : Instance Accounts.Props Accounts.State) :
  callbacks (eval (Accounts.render styles) i) =
    if Accounts.newDialog (state i)
    then [ Accounts.onNewAccountClose; Accounts.onNewAccountUpdate;
           Accounts.onNewAccountClick ]
    else [ Accounts.onNewAccountClick ].
Proof. flags i; reflexivity. Qed.

Lemma Accounts_step_addressBook styles i j :
  step (Accounts.render styles) i j ->
  Accounts.addressBook (state j) = Accounts.addressBook (state i).
Proof.
  intros [i' f Hf | i' p]; [ | reflexivity ].
  rewrite Accounts_callbacks in Hf.
  destruct (Accounts.newDialog (state i')); simpl in Hf;
    intuition subst; reflexivity.
Qed.

(** C9. In the Accounts view [addressBook] starts out false and is still
    false in every instance reached from a mounted one by any sequence of
    callback invocations and prop changes, also after a [render] of that
    instance; and the render tree is the same whatever value
    [addressBook] holds. *)
Theorem addressBook_never_set styles p i :
  rtc (step (Accounts.render styles)) (Accounts.mount p) i ->
  Accounts.addressBook (state (Accounts.mount p)) = false /\
  Accounts.addressBook (state i) = false /\
  Accounts.addressBook (state (exec (Accounts.render styles) i)) = false /\
  (forall q b nd,
     eval (Accounts.render styles)
       {| props := q;
          state := {| Accounts.addressBook := b; Accounts.newDialog := nd |} |}
     = eval (Accounts.render styles)
         {| props := q;
            state := {| Accounts.addressBook := false;
                        Accounts.newDialog := nd |} |}).
Proof.
  intros Hreach.
  assert (Hinv : Accounts.addressBook (state i) = false);
    [ | split; [ reflexivity | split; [ exact Hinv | split ] ] ].
  - revert i Hreach.
    apply (rtc_ind_r (fun i => Accounts.addressBook (state i) = false));
      [ reflexivity | ].
    intros j k _ Hstep IH.
    rewrite (Accounts_step_addressBook _ _ _ Hstep). exact IH.
  - rewrite <- Hinv. flags i; reflexivity.
  - intros q b [|]; reflexivity.
Qed.

(** The instance reached by pressing 'new account' once. *)
Lemma addressBook_never_set_after_press :
  Accounts.addressBook
    (state (exec Accounts.onNewAccountClick
              (Accounts.mount Sample.accountsProps))) = false.
Proof.
  refine (proj1 (proj2 (addressBook_never_set Sample.css Sample.accountsProps
                          (exec Accounts.onNewAccountClick
                             (Accounts.mount Sample.accountsProps)) _))).
  apply rtc_once.
  apply (step_callback _ _ Accounts.onNewAccountClick).
  simpl. left. reflexivity.
Defined.

(** ** Loading *)

(** C10. The spinner's [size] attribute is the component's [size] prop
    times 60 and its [thickness] is passed through; the defaults are
    [className = ''], [size = 2], [thickness = 3.5]; so an element written
    without props renders the spinner with size 120 and thickness 3.5. *)
Theorem Loading_scales_size_by_60 :
  forall styles,
    (forall p : Loading.Props,
       instancesOf CircularProgress (Loading.Loading styles p) =
         [ VElem (F := Empty_set) CircularProgress
             [ ("size", VNum (Loading.size p * 60)%float);
               ("thickness", VNum (Loading.thickness p)) ] [] ]) /\
    Loading.resolveDefaults Loading.noProps =
      {| Loading.className := ""; Loading.size := 2%float;
         Loading.thickness := 3.5%float |} /\
    instancesOf CircularProgress (Loading.createElement styles Loading.noProps) =
      [ VElem (F := Empty_set) CircularProgress
          [ ("size", VNum 120%float); ("thickness", VNum 3.5%float) ] [] ].
Proof. intros styles. repeat split. Qed.

(** ** The mock helpers *)

Section HelpersFacts.
Variable ENDPOINT : string.

Lemma matches_same s verb host uri code fn payload :
  Nock.basePath s = host ->
  Nock.matches s
    {| Nock.method := verb; Nock.host := host;
       Nock.path := uri; Nock.payload := payload |}
    {| Nock.verb := verb; Nock.uri := uri;
       Nock.statusCode := code; Nock.replyFn := fn |} = true.
Proof.
  intros <-. unfold Nock.matches; simpl.
  rewrite bool_decide_eq_true_2 by reflexivity.
  rewrite !String.eqb_refl. reflexivity.
Qed.

Lemma matches_other_path s r i :
  Nock.uri i <> Nock.path r -> Nock.matches s r i = false.
Proof.
  intros Hne. unfold Nock.matches.
  apply String.eqb_neq in Hne. rewrite Hne. apply andb_false_r.
Qed.

Lemma take_first s r pre i post :
  Forall (fun j => Nock.matches s r j = false) pre ->
  Nock.matches s r i = true ->
  Nock.take s r (pre ++ i :: post) = Some (i, pre ++ post).
Proof.
  intros Hpre Hi. induction Hpre as [ | j pre Hj _ IH ]; simpl.
  - rewrite Hi. reflexivity.
  - rewrite Hj, IH. reflexivity.
Qed.

(** The scope either helper returns: one interceptor per descriptor, in
    the order of the list. *)
Lemma mockget_registers ds :
  Helpers.mockget ENDPOINT ds =
    {| Nock.basePath := ENDPOINT;
       Nock.interceptors := map registeredGet ds;
       Nock.body := None |}.
Proof.
  unfold Helpers.mockget.
  change (map registeredGet ds)
    with (Nock.interceptors (Nock.nock ENDPOINT) ++ map registeredGet ds).
  change ENDPOINT with (Nock.basePath (Nock.nock ENDPOINT)) at 2.
  change (@None Collection) with (Nock.body (Nock.nock ENDPOINT)).
  generalize (Nock.nock ENDPOINT).
  induction ds as [ | d ds IH ]; intros s; simpl.
  - rewrite app_nil_r. destruct s; reflexivity.
  - rewrite IH. simpl. rewrite <- app_assoc. reflexivity.
Qed.

Lemma mockpost_registers ds :
  Helpers.mockpost ENDPOINT ds =
    {| Nock.basePath := ENDPOINT;
       Nock.interceptors := map registeredPost ds;
       Nock.body := None |}.
Proof.
  unfold Helpers.mockpost.
  change (map registeredPost ds)
    with (Nock.interceptors (Nock.nock ENDPOINT) ++ map registeredPost ds).
  change ENDPOINT with (Nock.basePath (Nock.nock ENDPOINT)) at 2.
  change (@None Collection) with (Nock.body (Nock.nock ENDPOINT)).
  generalize (Nock.nock ENDPOINT).
  induction ds as [ | d ds IH ]; intros s; simpl.
  - rewrite app_nil_r. destruct s; reflexivity.
  - rewrite IH. simpl. rewrite <- app_assoc. reflexivity.
Qed.

Lemma other_paths_do_not_match (registered : Helpers.Descriptor -> Nock.Interceptor)
    s r (d : Helpers.Descriptor) pre :
  (forall d', Nock.uri (registered d') = "/" +:+ Helpers.path d') ->
  Nock.path r = "/" +:+ Helpers.path d ->
  Forall (fun d' => Helpers.path d' <> Helpers.path d) pre ->
  Forall (fun j => Nock.matches s r j = false) (map registered pre).
Proof.
  intros Huri Hr Hpre. apply Forall_map.
  eapply Forall_impl; [ exact Hpre | ].
  intros d' Hne. apply matches_other_path.
  rewrite Huri, Hr. intros Heq. apply Hne. injection Heq. auto.
Qed.

(** In a list of descriptors, the first one with a given path answers a
    GET of that path: status [code || 200], body its reply; the scope
    left is the one the other descriptors alone would have built. *)
Lemma mockget_answers pre (d : Helpers.Descriptor) post payload :
  Forall (fun d' => Helpers.path d' <> Helpers.path d) pre ->
  Nock.serve
    {| Nock.method := Nock.GET; Nock.host := ENDPOINT;
       Nock.path := "/" +:+ Helpers.path d; Nock.payload := payload |}
    (Helpers.mockget ENDPOINT (pre ++ d :: post))
  = Some ({| Nock.status := Helpers.codeOrDefault (Helpers.code d);
             Nock.data := Helpers.reply d |},
          Helpers.mockget ENDPOINT (pre ++ post)).
Proof.
  intros Hpre. rewrite !mockget_registers. unfold Nock.serve.
  cbn [Nock.interceptors]. rewrite !map_app. cbn [map].
  rewrite take_first;
    [ reflexivity
    | eapply other_paths_do_not_match; [ | reflexivity | exact Hpre ];
      reflexivity
    | apply matches_same; reflexivity ].
Qed.

(** The same for POST, and the request body is recorded in [scope.body]
    under the descriptor's path. *)
Lemma mockpost_answers pre (d : Helpers.Descriptor) post payload :
  Forall (fun d' => Helpers.path d' <> Helpers.path d) pre ->
  Nock.serve
    {| Nock.method := Nock.POST; Nock.host := ENDPOINT;
       Nock.path := "/" +:+ Helpers.path d; Nock.payload := payload |}
    (Helpers.mockpost ENDPOINT (pre ++ d :: post))
  = Some ({| Nock.status := Helpers.codeOrDefault (Helpers.code d);
             Nock.data := Helpers.reply d |},
          {| Nock.basePath := ENDPOINT;
             Nock.interceptors := map registeredPost (pre ++ post);
             Nock.body := Some {[ Helpers.path d := payload ]} |}).
Proof.
  intros Hpre. rewrite !mockpost_registers. unfold Nock.serve.
  cbn [Nock.interceptors]. rewrite !map_app. cbn [map].
  rewrite take_first;
    [ simpl; rewrite insert_empty; reflexivity
    | eapply other_paths_do_not_match; [ | reflexivity | exact Hpre ];
      reflexivity
    | apply matches_same; reflexivity ].
Qed.

Lemma mockget_single (d : Helpers.Descriptor) payload :
  Nock.serve
    {| Nock.method := Nock.GET; Nock.host := ENDPOINT;
       Nock.path := "/" +:+ Helpers.path d; Nock.payload := payload |}
    (Helpers.mockget ENDPOINT [ d ])
  = Some ({| Nock.status := Helpers.codeOrDefault (Helpers.code d);
             Nock.data := Helpers.reply d |},
          Nock.nock ENDPOINT).
Proof. apply (mockget_answers [] d []). constructor. Qed.

Lemma mockpost_single (d : Helpers.Descriptor) payload :
  Nock.serve
    {| Nock.method := Nock.POST; Nock.host := ENDPOINT;
       Nock.path := "/" +:+ Helpers.path d; Nock.payload := payload |}
    (Helpers.mockpost ENDPOINT [ d ])
  = Some ({| Nock.status := Helpers.codeOrDefault (Helpers.code d);
             Nock.data := Helpers.reply d |},
          {| Nock.basePath := ENDPOINT; Nock.interceptors := [];
             Nock.body := Some {[ Helpers.path d := payload ]} |}).
Proof. apply (mockpost_answers [] d []). constructor. Qed.
End HelpersFacts.

(** C6. [mockget([{path: 'rate', reply: {rate: 1}}])] answers a GET of
    [/rate] on the endpoint with status 200 and body [{rate: 1}];
    [mockpost([{path: 'send', code: 201, reply: {ok: true}}])] answers a
    POST of [/send] with status 201 and body [{ok: true}] and leaves the
    request body in [scope.body['send']]; and for either helper a
    descriptor without [code], the first of its path in the list, is
    answered with status 200. *)
Theorem mock_helpers_scenario :
  forall (ENDPOINT : string) (payload : Json),
    let rate := JObj [ ("rate", JNum 1%float) ] in
    let ok := JObj [ ("ok", JBool true) ] in
    (exists scope,
        Nock.serve
          {| Nock.method := Nock.GET; Nock.host := ENDPOINT;
             Nock.path := "/rate"; Nock.payload := payload |}
          (Helpers.mockget ENDPOINT
             [ {| Helpers.path := "rate"; Helpers.code := None;
                  Helpers.reply := rate |} ])
        = Some ({| Nock.status := 200; Nock.data := rate |}, scope)) /\
    (exists scope,
        Nock.serve
          {| Nock.method := Nock.POST; Nock.host := ENDPOINT;
             Nock.path := "/send"; Nock.payload := payload |}
          (Helpers.mockpost ENDPOINT
             [ {| Helpers.path := "send"; Helpers.code := Some 201%Z;
                  Helpers.reply := ok |} ])
        = Some ({| Nock.status := 201; Nock.data := ok |}, scope) /\
        Nock.body scope ≫= (fun recorded => recorded !! "send")
          = Some payload) /\
    (forall pre post path reply,
        let d := {| Helpers.path := path; Helpers.code := None;
                    Helpers.reply := reply |} in
        Forall (fun d' => Helpers.path d' <> path) pre ->
        (exists scope,
            Nock.serve
              {| Nock.method := Nock.GET; Nock.host := ENDPOINT;
                 Nock.path := "/" +:+ path; Nock.payload := payload |}
              (Helpers.mockget ENDPOINT (pre ++ d :: post))
            = Some ({| Nock.status := 200; Nock.data := reply |}, scope)) /\
        (exists scope,
            Nock.serve
              {| Nock.method := Nock.POST; Nock.host := ENDPOINT;
                 Nock.path := "/" +:+ path; Nock.payload := payload |}
              (Helpers.mockpost ENDPOINT (pre ++ d :: post))
            = Some ({| Nock.status := 200; Nock.data := reply |}, scope))).
Proof.
  intros ENDPOINT payload rate ok. split; [ | split ].
  - eexists. apply (mockget_single ENDPOINT
      {| Helpers.path := "rate"; Helpers.code := None; Helpers.reply := rate |}).
  - eexists. split.
    + apply (mockpost_single ENDPOINT
        {| Helpers.path := "send"; Helpers.code := Some 201%Z;
           Helpers.reply := ok |}).
    + simpl. apply lookup_singleton_eq.
  - intros pre post path reply d Hpre. split; eexists.
    + apply (mockget_answers ENDPOINT pre d post payload Hpre).
    + apply (mockpost_answers ENDPOINT pre d post payload Hpre).
Qed.

(** A descriptor without [code], registered after one for another path. *)
Lemma mock_helpers_scenario_second_descriptor :
  exists scope,
    Nock.serve
      {| Nock.method := Nock.GET; Nock.host := "https://shapeshift.io";
         Nock.path := "/" +:+ "marketinfo"; Nock.payload := JNull |}
      (Helpers.mockget "https://shapeshift.io"
         [ {| Helpers.path := "rate"; Helpers.code := Some 500%Z;
              Helpers.reply := JNull |};
           {| Helpers.path := "marketinfo"; Helpers.code := None;
              Helpers.reply := JObj [ ("pair", JStr "btc_eth") ] |} ])
    = Some ({| Nock.status := 200;
               Nock.data := JObj [ ("pair", JStr "btc_eth") ] |}, scope).
Proof.
  destruct (mock_helpers_scenario "https://shapeshift.io" JNull)
    as (_ & _ & Hdefault).
  refine (proj1 (Hdefault
                   [ {| Helpers.path := "rate"; Helpers.code := Some 500%Z;
                        Helpers.reply := JNull |} ]
                   [] "marketinfo" (JObj [ ("pair", JStr "btc_eth") ]) _)).
  repeat constructor. discriminate.
Defined.

(** ** Buttons open, close callbacks close *)

(** C1, as stated, fails in the Accounts view: with the dialog open the
    button's handler clears [newDialog], and with the dialog closed the
    close callback sets it. *)
Lemma Accounts_button_does_not_always_open :
  (let i := {| props := Sample.accountsProps;
               state := {| Accounts.addressBook := false;
                           Accounts.newDialog := true |} |} in
   onClicks (eval (Accounts.render Sample.css) i)
     = [ Accounts.onNewAccountClick ] /\
   Accounts.newDialog (state (exec Accounts.onNewAccountClick i)) = false) /\
  Accounts.newDialog
    (state (exec Accounts.onNewAccountClose
              (Accounts.mount Sample.accountsProps))) = true /\
  ~ opensAndCloses Accounts.onNewAccountClick Accounts.onNewAccountClose
      Accounts.newDialog.
Proof.
  repeat split.
  intros H.
  destruct (H (Accounts.mount Sample.accountsProps)) as [_ Hclose].
  discriminate Hclose.
Qed.

(** C1, amended. In Addresses and Contracts, in every view state, each
    action-bar button's handler sets its own flag to true and the close
    callback handed to the corresponding dialog sets that flag to false,
    each leaving the other flag and the props as they were. In Accounts
    the button's handler and the dialog's close callback both invert
    [newDialog] and leave [addressBook] and the props as they were. *)
Theorem handlers_write_their_own_flag :
  (* Addresses *)
  ((forall styles i,
      onClicks (eval (Addresses.render styles) i) = [ Addresses.onOpenAdd ] /\
      onCloses (eval (Addresses.render styles) (exec Addresses.onOpenAdd i))
        = [ Addresses.onCloseAdd ]) /\
   opensAndCloses Addresses.onOpenAdd Addresses.onCloseAdd Addresses.showAdd /\
   (forall i,
      props (exec Addresses.onOpenAdd i) = props i /\
      props (exec Addresses.onCloseAdd i) = props i)) /\
  (* Contracts *)
  ((forall styles i,
      onClicks (eval (Contracts.render styles) i)
        = [ Contracts.onAddContract; Contracts.onDeployContract ] /\
      (forall e,
         In e (instancesOf AddContract (eval (Contracts.render styles) i)) ->
         attr "onClose" e = Some (VFun Contracts.onAddContractClose)) /\
      (forall e,
         In e (instancesOf DeployContract (eval (Contracts.render styles) i)) ->
         attr "onClose" e = Some (VFun Contracts.onDeployContractClose))) /\
   opensAndCloses Contracts.onAddContract Contracts.onAddContractClose
     Contracts.addContract /\
   opensAndCloses Contracts.onDeployContract Contracts.onDeployContractClose
     Contracts.deployContract /\
   (forall i,
      let unchanged (h : Contracts.Handler) (other : Contracts.State -> bool) :=
        other (state (exec h i)) = other (state i) /\
        props (exec h i) = props i in
      unchanged Contracts.onAddContract Contracts.deployContract /\
      unchanged Contracts.onAddContractClose Contracts.deployContract /\
      unchanged Contracts.onDeployContract Contracts.addContract /\
      unchanged Contracts.onDeployContractClose Contracts.addContract)) /\
  (* Accounts *)
  ((forall styles i,
      onClicks (eval (Accounts.render styles) i)
        = [ Accounts.onNewAccountClick ] /\
      onCloses (eval (Accounts.render styles) i)
        = if Accounts.newDialog (state i)
          then [ Accounts.onNewAccountClose ] else []) /\
   (forall i,
      let inverted :=
        {| props := props i;
           state := {| Accounts.addressBook := Accounts.addressBook (state i);
                       Accounts.newDialog :=
                         negb (Accounts.newDialog (state i)) |} |} in
      exec Accounts.onNewAccountClick i = inverted /\
      exec Accounts.onNewAccountClose i = inverted)).
Proof.
  split; [ | split ].
  - split; [ | split ].
    + intros styles i; flags i; split; reflexivity.
    + intros i; split; reflexivity.
    + intros i; split; reflexivity.
  - split; [ | split; [ | split ] ].
    + intros styles i. split; [ flags i; reflexivity | split ]; intros e He.
      * apply Contracts_add_dialogs in He as [_ ->]. reflexivity.
      * rewrite Contracts_deploy_dialogs in He.
        destruct (Contracts.deployContract (state i)); simpl in He;
          [ destruct He as [<- | []]; reflexivity | destruct He ].
    + intros i; split; reflexivity.
    + intros i; split; reflexivity.
    + intros i; repeat split.
  - split.
    + intros styles i. split; [ flags i; reflexivity | apply Accounts_onCloses ].
    + intros i; split; reflexivity.
Qed.

(** The watch-contract dialog, once opened, carries its close callback. *)
Lemma handlers_write_their_own_flag_watch_dialog :
  attr "onClose"
    (VElem AddContract
       [ ("contracts", VObj (Contracts.contracts Sample.contractsProps));
         ("onClose", VFun Contracts.onAddContractClose) ] [])
  = Some (VFun Contracts.onAddContractClose).
Proof.
  destruct handlers_write_their_own_flag as (_ & (Hwired & _) & _).
  destruct (Hwired Sample.css
              (exec Contracts.onAddContract
                 (Contracts.mount Sample.contractsProps)))
    as (_ & Hadd & _).
  apply Hadd. simpl. left. reflexivity.
Defined.

(** ** What is rendered after "open" events *)

Lemma Accounts_after_presses hs (i : Instance Accounts.Props Accounts.State) :
  Forall (fun h => h = Accounts.onNewAccountClick) hs ->
  state (deliver hs i) =
    {| Accounts.addressBook := Accounts.addressBook (state i);
       Accounts.newDialog :=
         xorb (Nat.odd (length hs)) (Accounts.newDialog (state i)) |}.
Proof.
  intros Hall. revert i.
  induction Hall as [ | h hs -> _ IH ]; intros i.
  - destruct i as [p [ab nd]]; reflexivity.
  - rewrite (deliver_cons (P := Accounts.Props) (S := Accounts.State)), IH.
    cbn [length].
    rewrite Nat.odd_succ, <- Nat.negb_odd.
    destruct i as [p [ab nd]]; simpl.
    destruct (Nat.odd (length hs)), nd; reflexivity.
Qed.

Lemma Accounts_after_clicks p n :
  state (deliver (repeat Accounts.onNewAccountClick n) (Accounts.mount p)) =
    {| Accounts.addressBook := false; Accounts.newDialog := Nat.odd n |}.
Proof.
  rewrite Accounts_after_presses
    by (apply Forall_forall; intros h Hh; apply list_elem_of_In in Hh;
        exact (repeat_spec _ _ _ Hh)).
  rewrite repeat_length, xorb_false_r. reflexivity.
Qed.

Lemma Addresses_after_opens p n :
  state (deliver (repeat Addresses.onOpenAdd (S n)) (Addresses.mount p)) =
    {| Addresses.showAdd := true |}.
Proof.
  generalize (Addresses.mount p). induction n as [ | n IH ]; intros i.
  - reflexivity.
  - change (repeat Addresses.onOpenAdd (S (S n)))
      with (Addresses.onOpenAdd :: repeat Addresses.onOpenAdd (S n)).
    rewrite (deliver_cons (P := Addresses.Props) (S := Addresses.State)).
    apply IH.
Qed.

Lemma Contracts_after_opens ds (i : Instance Contracts.Props Contracts.State) :
  state (deliver (map openContractsDialog ds) i) =
    {| Contracts.addContract :=
         opened Watch ds || Contracts.addContract (state i);
       Contracts.deployContract :=
         opened Deploy ds || Contracts.deployContract (state i) |}.
Proof.
  revert i. induction ds as [ | d ds IH ]; intros i.
  - destruct i as [p [a d]]; reflexivity.
  - cbn [map].
    rewrite (deliver_cons (P := Contracts.Props) (S := Contracts.State)), IH.
    destruct i as [p [a b]], d; simpl;
      destruct (opened Watch ds), (opened Deploy ds), a, b; reflexivity.
Qed.

Lemma Contracts_after_deploys p n :
  state (deliver (repeat Contracts.onDeployContract (S n)) (Contracts.mount p)) =
    {| Contracts.addContract := false; Contracts.deployContract := true |}.
Proof.
  pose proof (Contracts_after_opens (repeat Deploy (S n)) (Contracts.mount p))
    as Hst.
  rewrite map_repeat in Hst. cbn [openContractsDialog] in Hst.
  rewrite Hst. clear Hst.
  replace (opened Watch (repeat Deploy (S n))) with false
    by (induction n as [ | n IH ]; [ reflexivity | exact IH ]).
  reflexivity.
Qed.

(** C2, as stated, fails in the Accounts view: two presses of the
    'new account' button from the mounted state leave no modal at all. *)
Lemma Accounts_two_presses_no_modal :
  modals (eval (Accounts.render Sample.css)
            (deliver [ Accounts.onNewAccountClick; Accounts.onNewAccountClick ]
               (Accounts.mount Sample.accountsProps))) = [] /\
  ~ opensExactlyOne (Accounts.render Sample.css) Accounts.mount
      Accounts.onNewAccountClick CreateAccount "accounts" Accounts.accounts.
Proof.
  split; [ reflexivity | ].
  intros H.
  destruct (H Sample.accountsProps Sample.accountsProps 1) as (e & He & _).
  rewrite Accounts_modals, Accounts_after_clicks in He.
  discriminate He.
Qed.

(** C2, amended. Addresses: after one or more presses of 'new address'
    exactly one modal is rendered, [AddAddress], holding the current
    [contacts]. Contracts: after one or more presses of 'deploy contract'
    alone exactly one modal is rendered, [DeployContract], holding the
    current [accounts]; after any sequence of presses of the two buttons
    [DeployContract] is rendered (once, with the current [accounts]) exactly
    when it was pressed, and [AddContract] is rendered exactly when it
    was pressed, each of its elements holding the current [contracts].
    Accounts: after [n] presses of 'new account' exactly one modal is
    rendered, [CreateAccount], holding the current [accounts], when [n] is
    odd, and none when [n] is even. In no view is a dialog passed
    [balances]. *)
Theorem dialogs_rendered_after_presses :
  (forall styles,
     opensExactlyOne (Addresses.render styles) Addresses.mount
       Addresses.onOpenAdd AddAddress "contacts" Addresses.contacts) /\
  (forall styles,
     opensExactlyOne (Contracts.render styles) Contracts.mount
       Contracts.onDeployContract DeployContract "accounts" Contracts.accounts) /\
  (forall styles p q ds,
     let t := eval (Contracts.render styles)
                {| props := q;
                   state := state (deliver (map openContractsDialog ds)
                                     (Contracts.mount p)) |} in
     (exists e, dialogWith DeployContract "accounts" (Contracts.accounts q) e /\
                instancesOf DeployContract t
                  = if opened Deploy ds then [ e ] else []) /\
     (instancesOf AddContract t <> [] <-> opened Watch ds = true) /\
     (forall e, In e (instancesOf AddContract t) ->
                dialogWith AddContract "contracts" (Contracts.contracts q) e) /\
     modals t = instancesOf AddContract t ++ instancesOf DeployContract t) /\
  (forall styles p q n,
     let t := eval (Accounts.render styles)
                {| props := q;
                   state := state (deliver (repeat Accounts.onNewAccountClick n)
                                     (Accounts.mount p)) |} in
     (Nat.odd n = true ->
      exists e, modals t = [ e ] /\
                dialogWith CreateAccount "accounts" (Accounts.accounts q) e) /\
     (Nat.odd n = false -> modals t = [])) /\
  (forall styles,
     (forall i e, In e (modals (eval (Addresses.render styles) i)) ->
                  attr "balances" e = None) /\
     (forall i e, In e (modals (eval (Contracts.render styles) i)) ->
                  attr "balances" e = None) /\
     (forall i e, In e (modals (eval (Accounts.render styles) i)) ->
                  attr "balances" e = None)).
Proof.
  split; [ | split; [ | split; [ | split ] ] ].
  - intros styles p q n. rewrite Addresses_modals, Addresses_after_opens.
    eexists; split; [ reflexivity | split; reflexivity ].
  - intros styles p q n.
    rewrite Contracts_modals, Contracts_add_dialogs_twice,
      Contracts_deploy_dialogs, Contracts_after_deploys.
    eexists; split; [ reflexivity | split; reflexivity ].
  - intros styles p q ds t. subst t.
    rewrite Contracts_modals, Contracts_add_dialogs_twice,
      Contracts_deploy_dialogs, Contracts_after_opens.
    simpl. rewrite !orb_false_r.
    split; [ | split; [ | split ] ].
    + eexists; split; [ | reflexivity ]. split; reflexivity.
    + destruct (opened Watch ds); split; congruence.
    + intros e He. destruct (opened Watch ds); simpl in He;
        [ destruct He as [<- | [<- | []]]; split; reflexivity | destruct He ].
    + reflexivity.
  - intros styles p q n t. subst t.
    rewrite Accounts_modals, Accounts_after_clicks. simpl.
    split; intros ->.
    + eexists; split; [ reflexivity | split; reflexivity ].
    + reflexivity.
  - intros styles. split; [ | split ]; intros i e He.
    + rewrite Addresses_modals in He.
      destruct (Addresses.showAdd (state i)); simpl in He;
        [ destruct He as [<- | []]; reflexivity | destruct He ].
    + rewrite Contracts_modals, Contracts_add_dialogs_twice,
        Contracts_deploy_dialogs in He.
      destruct (Contracts.addContract (state i)),
        (Contracts.deployContract (state i)); simpl in He;
        intuition subst; reflexivity.
    + rewrite Accounts_modals in He.
      destruct (Accounts.newDialog (state i)); simpl in He;
        [ destruct He as [<- | []]; reflexivity | destruct He ].
Qed.

(** At three presses of 'new account' the dialog is rendered with the
    current accounts. *)
Lemma dialogs_rendered_after_presses_at_three :
  exists e,
    modals (eval (Accounts.render Sample.css)
              {| props := Sample.accountsProps;
                 state := state (deliver (repeat Accounts.onNewAccountClick 3)
                                   (Accounts.mount Sample.accountsProps)) |})
      = [ e ] /\
    dialogWith CreateAccount "accounts" Sample.entries e.
Proof.
  destruct dialogs_rendered_after_presses as (_ & _ & _ & Hacc & _).
  destruct (Hacc Sample.css Sample.accountsProps Sample.accountsProps 3)
    as [Hodd _].
  apply Hodd. reflexivity.
Defined.

(** ** Closing a dialog *)

Lemma bothOpen_reachable :
  rtc (step (Contracts.render Sample.css))
    (Contracts.mount Sample.contractsProps) bothOpen.
Proof.
  eapply rtc_l;
    [ apply (step_callback _ _ Contracts.onAddContract); simpl; tauto | ].
  eapply rtc_l;
    [ apply (step_callback _ _ Contracts.onDeployContract); simpl; tauto | ].
  apply rtc_refl.
Qed.

(** C3, as stated, fails. Contracts: with both dialogs open (a reachable
    state) the close callback handed to the rendered [AddContract] dialog
    leaves [DeployContract] rendered. Accounts: invoked on the mounted
    instance, [onNewAccountClose] opens the dialog. *)
Lemma close_can_leave_a_modal :
  (In Contracts.onAddContractClose
      (onCloses (eval (Contracts.render Sample.css) bothOpen)) /\
   modals (eval (Contracts.render Sample.css)
             (exec Contracts.onAddContractClose bothOpen))
     = [ VElem DeployContract
           [ ("accounts", VObj Sample.entries);
             ("onClose", VFun Contracts.onDeployContractClose) ] [] ] /\
   ~ closeLeavesNoModal (Contracts.render Sample.css) Contracts.mount
       Contracts.onAddContractClose) /\
  ~ closeLeavesNoModal (Accounts.render Sample.css) Accounts.mount
      Accounts.onNewAccountClose.
Proof.
  split; [ split; [ | split ] | ].
  - simpl. tauto.
  - reflexivity.
  - intros H. specialize (H _ _ bothOpen_reachable). discriminate H.
  - intros H.
    specialize (H Sample.accountsProps _ (rtc_refl _ _)). discriminate H.
Qed.

(** C3, amended. Addresses: invoking [onCloseAdd] in any state leaves no
    modal rendered. Accounts: invoking the close callback handed to a
    rendered dialog leaves no modal rendered. Contracts: a dialog's close
    callback removes that dialog and leaves the other dialog as it was,
    so no modal is rendered afterwards exactly when the other dialog's
    flag was not set. *)
Theorem close_callback_removes_its_dialog :
  (forall styles i,
     modals (eval (Addresses.render styles) (exec Addresses.onCloseAdd i)) = []) /\
  (forall styles i f,
     In f (onCloses (eval (Accounts.render styles) i)) ->
     modals (eval (Accounts.render styles) (exec f i)) = []) /\
  (forall styles i,
     let after := exec Contracts.onAddContractClose i in
     instancesOf AddContract (eval (Contracts.render styles) after) = [] /\
     instancesOf DeployContract (eval (Contracts.render styles) after)
       = instancesOf DeployContract (eval (Contracts.render styles) i) /\
     (modals (eval (Contracts.render styles) after) = [] <->
      Contracts.deployContract (state i) = false)) /\
  (forall styles i,
     let after := exec Contracts.onDeployContractClose i in
     instancesOf DeployContract (eval (Contracts.render styles) after) = [] /\
     instancesOf AddContract (eval (Contracts.render styles) after)
       = instancesOf AddContract (eval (Contracts.render styles) i) /\
     (modals (eval (Contracts.render styles) after) = [] <->
      Contracts.addContract (state i) = false)).
Proof.
  split; [ | split; [ | split ] ].
  - intros styles i; flags i; reflexivity.
  - intros styles i f Hf. rewrite Accounts_onCloses in Hf.
    destruct (Accounts.newDialog (state i)) eqn:Hopen; simpl in Hf;
      [ destruct Hf as [<- | []] | destruct Hf ].
    flags i; try discriminate Hopen; reflexivity.
  - intros styles i after; subst after.
    rewrite Contracts_modals, !Contracts_add_dialogs_twice,
      !Contracts_deploy_dialogs.
    flags i; simpl; repeat split; congruence.
  - intros styles i after; subst after.
    rewrite Contracts_modals, !Contracts_add_dialogs_twice,
      !Contracts_deploy_dialogs.
    flags i; simpl; repeat split; congruence.
Qed.

(** With the create-account dialog open, the close callback it was
    handed leaves no modal. *)
Lemma close_callback_removes_its_dialog_open_account :
  modals (eval (Accounts.render Sample.css)
            (exec Accounts.onNewAccountClose
               (exec Accounts.onNewAccountClick
                  (Accounts.mount Sample.accountsProps)))) = [].
Proof.
  destruct close_callback_removes_its_dialog as (_ & Hacc & _).
  apply (Hacc Sample.css
           (exec Accounts.onNewAccountClick (Accounts.mount Sample.accountsProps))).
  simpl. left. reflexivity.
Defined.

(** * Further properties of the views *)

(** ** Sequences of user events *)

Lemma deliver_snoc {P S} (hs : list (Method P S unit)) h (i : Instance P S) :
  deliver (hs ++ [ h ]) i = exec h (deliver hs i).
Proof. unfold deliver. rewrite fold_left_app. reflexivity. Qed.

Lemma lastAbout_snoc d es e :
  lastAbout d (es ++ [ e ]) =
    if ContractsDialog_eqb d (contractsEventDialog e)
    then Some (contractsEventOpens e) else lastAbout d es.
Proof.
  unfold lastAbout. rewrite omap_app. simpl.
  destruct (ContractsDialog_eqb d (contractsEventDialog e)).
  - apply last_snoc.
  - rewrite app_nil_r. reflexivity.
Qed.

(** X1. Contracts and Addresses: after any sequence of button presses and
    dialog closes, delivered to any instance, the props are untouched and
    each dialog's flag is what the last event about that dialog wrote
    (true for a press, false for a close); a flag no event was about
    keeps its value. Events about different dialogs therefore never
    interfere, whatever their order. *)
Theorem last_event_about_a_dialog_wins :
  (forall es (i : Instance Contracts.Props Contracts.State),
     deliver (map contractsHandler es) i =
       {| props := props i;
          state :=
            {| Contracts.addContract :=
                 default (Contracts.addContract (state i)) (lastAbout Watch es);
               Contracts.deployContract :=
                 default (Contracts.deployContract (state i))
                   (lastAbout Deploy es) |} |}) /\
  (forall es (i : Instance Addresses.Props Addresses.State),
     deliver (map addressesHandler es) i =
       {| props := props i;
          state :=
            {| Addresses.showAdd :=
                 default (Addresses.showAdd (state i))
                   (last (map addressesEventOpens es)) |} |}).
Proof.
  split; intros es i; induction es as [ | e es IH ] using rev_ind.
  - destruct i as [p [a d]]; reflexivity.
  - rewrite map_app. cbn [map].
    rewrite (deliver_snoc (P := Contracts.Props) (S := Contracts.State)), IH.
    rewrite !lastAbout_snoc. destruct e; reflexivity.
  - destruct i as [p [a]]; reflexivity.
  - rewrite !map_app. cbn [map].
    rewrite (deliver_snoc (P := Addresses.Props) (S := Addresses.State)), IH.
    rewrite last_snoc. destruct e; reflexivity.
Qed.

(** X2. Accounts: after any sequence of button presses, dialog closes and
    dialog updates, delivered to any instance, the props and
    [addressBook] are untouched and [newDialog] has been inverted once
    per press or close: it differs from its starting value exactly when
    their number is odd. Updates do not count. *)
Theorem Accounts_dialog_follows_parity :
  forall es (i : Instance Accounts.Props Accounts.State),
    deliver (map accountsHandler es) i =
      {| props := props i;
         state :=
           {| Accounts.addressBook := Accounts.addressBook (state i);
              Accounts.newDialog :=
                xorb (Nat.odd (length (List.filter accountsEventInverts es)))
                  (Accounts.newDialog (state i)) |} |}.
Proof.
  intros es. induction es as [ | e es IH ]; intros i.
  - destruct i as [p [ab nd]]; reflexivity.
  - cbn [map].
    rewrite (deliver_cons (P := Accounts.Props) (S := Accounts.State)), IH.
    destruct i as [p [ab nd]].
    destruct e; cbn [List.filter accountsEventInverts length];
      rewrite ?Nat.odd_succ, <- ?Nat.negb_odd;
      destruct (Nat.odd (length (List.filter accountsEventInverts es))), nd;
      reflexivity.
Qed.

(** ** Reachable instances *)

Lemma Addresses_callbacks styles (i : Instance Addresses.Props Addresses.State) :
  callbacks (eval (Addresses.render styles) i) =
    if Addresses.showAdd (state i)
    then [ Addresses.onOpenAdd; Addresses.onCloseAdd ]
    else [ Addresses.onOpenAdd ].
Proof. flags i; reflexivity. Qed.

Lemma Contracts_callbacks styles (i : Instance Contracts.Props Contracts.State) :
  callbacks (eval (Contracts.render styles) i) =
    [ Contracts.onAddContract; Contracts.onDeployContract ]
      ++ (if Contracts.addContract (state i)
          then [ Contracts.onAddContractClose; Contracts.onAddContractClose ]
          else [])
      ++ (if Contracts.deployContract (state i)
          then [ Contracts.onDeployContractClose ] else []).
Proof. flags i; reflexivity. Qed.

(** X3. Starting from a mounted instance and moving only by callbacks
    that the current render hands out and by prop changes, the Addresses
    and Contracts views can reach every instance (every combination of
    flags under any props, both Contracts dialogs open included), and the
    Accounts view reaches exactly the instances whose [addressBook] is
    false. *)
Theorem reachable_instances :
  forall styles,
    (forall p i, rtc (step (Addresses.render styles)) (Addresses.mount p) i) /\
    (forall p i, rtc (step (Contracts.render styles)) (Contracts.mount p) i) /\
    (forall p i,
       rtc (step (Accounts.render styles)) (Accounts.mount p) i <->
       Accounts.addressBook (state i) = false).
Proof.
  intros styles. split; [ | split ].
  - intros p [q [b]].
    eapply rtc_l; [ apply (step_props _ _ q) | ].
    destruct b; [ | apply rtc_refl ].
    apply rtc_once.
    apply (step_callback _
             {| props := q; state := Addresses.initialState |}
             Addresses.onOpenAdd).
    rewrite Addresses_callbacks. simpl. tauto.
  - intros p [q [a d]].
    eapply rtc_l; [ apply (step_props _ _ q) | ].
    apply rtc_trans
      with {| props := q;
              state := {| Contracts.addContract := a;
                          Contracts.deployContract := false |} |}.
    + destruct a; [ | apply rtc_refl ].
      apply rtc_once.
      apply (step_callback _
               {| props := q; state := Contracts.initialState |}
               Contracts.onAddContract).
      rewrite Contracts_callbacks. simpl. tauto.
    + destruct d; [ | apply rtc_refl ].
      apply rtc_once.
      apply (step_callback _
               {| props := q;
                  state := {| Contracts.addContract := a;
                              Contracts.deployContract := false |} |}
               Contracts.onDeployContract).
      rewrite Contracts_callbacks. simpl. tauto.
  - intros p i. split.
    + revert i.
      apply (rtc_ind_r (fun i => Accounts.addressBook (state i) = false));
        [ reflexivity | ].
      intros j k _ Hstep IH.
      rewrite (Accounts_step_addressBook _ _ _ Hstep). exact IH.
    + destruct i as [q [ab nd]]. simpl. intros ->.
      eapply rtc_l; [ apply (step_props _ _ q) | ].
      destruct nd; [ | apply rtc_refl ].
      apply rtc_once.
      apply (step_callback _
               {| props := q; state := Accounts.initialState |}
               Accounts.onNewAccountClick).
      rewrite Accounts_callbacks. simpl. tauto.
Qed.

(** ** What a callback leaves alone *)

(** X4. In each view, invoking any callback that the current render hands
    out (a button's handler, a dialog's close or update callback) leaves
    the props as they were, and the next render shows the same action bar
    and the same page region (the list with its attributes): only the
    dialogs can change. *)
Theorem callbacks_touch_only_dialogs :
  forall styles,
    (forall i f,
       In f (callbacks (eval (Accounts.render styles) i)) ->
       props (exec f i) = props i /\
       instancesOf Actionbar (eval (Accounts.render styles) (exec f i))
         = instancesOf Actionbar (eval (Accounts.render styles) i) /\
       instancesOf Page (eval (Accounts.render styles) (exec f i))
         = instancesOf Page (eval (Accounts.render styles) i)) /\
    (forall i f,
       In f (callbacks (eval (Addresses.render styles) i)) ->
       props (exec f i) = props i /\
       instancesOf Actionbar (eval (Addresses.render styles) (exec f i))
         = instancesOf Actionbar (eval (Addresses.render styles) i) /\
       instancesOf Page (eval (Addresses.render styles) (exec f i))
         = instancesOf Page (eval (Addresses.render styles) i)) /\
    (forall i f,
       In f (callbacks (eval (Contracts.render styles) i)) ->
       props (exec f i) = props i /\
       instancesOf Actionbar (eval (Contracts.render styles) (exec f i))
         = instancesOf Actionbar (eval (Contracts.render styles) i) /\
       instancesOf Page (eval (Contracts.render styles) (exec f i))
         = instancesOf Page (eval (Contracts.render styles) i)).
Proof.
  intros styles. split; [ | split ]; intros i f Hf.
  - rewrite Accounts_callbacks in Hf. flags i; simpl in Hf;
      intuition subst; reflexivity.
  - rewrite Addresses_callbacks in Hf. flags i; simpl in Hf;
      intuition subst; reflexivity.
  - rewrite Contracts_callbacks in Hf. flags i; simpl in Hf;
      intuition subst; reflexivity.
Qed.

(** Closing the open 'new address' dialog keeps the contacts list. *)
Lemma callbacks_touch_only_dialogs_close_add :
  instancesOf Page
    (eval (Addresses.render Sample.css)
       (exec Addresses.onCloseAdd
          (exec Addresses.onOpenAdd (Addresses.mount Sample.addressesProps))))
  = instancesOf Page
      (eval (Addresses.render Sample.css)
         (exec Addresses.onOpenAdd (Addresses.mount Sample.addressesProps))).
Proof.
  destruct (callbacks_touch_only_dialogs Sample.css) as (_ & Haddr & _).
  apply (Haddr (exec Addresses.onOpenAdd (Addresses.mount Sample.addressesProps))
           Addresses.onCloseAdd).
  simpl. right. left. reflexivity.
Defined.

(** ** How many dialogs are rendered *)

(** X5. The number of modal elements in a render is decided by the flags
    alone: one for Accounts when [newDialog] is set and one for Addresses
    when [showAdd] is set, else none; for Contracts two when
    [addContract] is set (its dialog is put into the tree by each of the
    two [renderAddContract] calls) plus one when [deployContract] is
    set, so between none and three. *)
Theorem number_of_modals :
  forall styles,
    (forall i,
       length (modals (eval (Accounts.render styles) i))
         = Nat.b2n (Accounts.newDialog (state i))) /\
    (forall i,
       length (modals (eval (Addresses.render styles) i))
         = Nat.b2n (Addresses.showAdd (state i))) /\
    (forall i,
       length (modals (eval (Contracts.render styles) i))
         = 2 * Nat.b2n (Contracts.addContract (state i))
           + Nat.b2n (Contracts.deployContract (state i)) /\
       length (modals (eval (Contracts.render styles) i)) <= 3).
Proof.
  intros styles. split; [ | split ]; intros i.
  - rewrite Accounts_modals.
    destruct (Accounts.newDialog (state i)); reflexivity.
  - rewrite Addresses_modals.
    destruct (Addresses.showAdd (state i)); reflexivity.
  - rewrite Contracts_modals, Contracts_add_dialogs_twice,
      Contracts_deploy_dialogs.
    destruct (Contracts.addContract (state i)),
      (Contracts.deployContract (state i)); simpl; lia.
Qed.

(** ** From the store to the tree *)

(** X6. For any store state and any view state, a view connected through
    its [mapStateToProps] renders exactly one list, which receives the
    view's own collection of [state.personal] (accounts, contacts or
    contracts) as [accounts], [state.balances.balances] as [balances], the
    negated [has...] flag as [empty] and the view's link kind (none for
    Accounts); every rendered dialog receives a collection of
    [state.personal] unchanged: [CreateAccount] and [DeployContract] the
    accounts, [AddAddress] the contacts, [AddContract] the contracts. *)
Theorem store_slices_reach_list_and_dialogs :
  forall styles (st : Store.State),
    let balances := Store.Balances.balances (Store.balances st) in
    let personal := Store.personal st in
    (forall s,
       let t := eval (Accounts.render styles)
                  {| props := Accounts.mapStateToProps st; state := s |} in
       instancesOf List t =
         [ VElem List
             [ ("accounts", VObj (Store.accounts personal));
               ("balances", VObj balances);
               ("empty", VBool (negb (Store.hasAccounts personal))) ] [] ] /\
       (forall e, In e (modals t) ->
          dialogWith CreateAccount "accounts" (Store.accounts personal) e)) /\
    (forall s,
       let t := eval (Addresses.render styles)
                  {| props := Addresses.mapStateToProps st; state := s |} in
       instancesOf List t =
         [ VElem List
             [ ("link", VStr "address");
               ("accounts", VObj (Store.contacts personal));
               ("balances", VObj balances);
               ("empty", VBool (negb (Store.hasContacts personal))) ] [] ] /\
       (forall e, In e (modals t) ->
          dialogWith AddAddress "contacts" (Store.contacts personal) e)) /\
    (forall s,
       let t := eval (Contracts.render styles)
                  {| props := Contracts.mapStateToProps st; state := s |} in
       instancesOf List t =
         [ VElem List
             [ ("link", VStr "contract");
               ("accounts", VObj (Store.contracts personal));
               ("balances", VObj balances);
               ("empty", VBool (negb (Store.hasContracts personal))) ] [] ] /\
       (forall e, In e (modals t) ->
          dialogWith AddContract "contracts" (Store.contracts personal) e \/
          dialogWith DeployContract "accounts" (Store.accounts personal) e)).
Proof.
  intros styles st balances personal. split; [ | split ]; intros s t; subst t.
  - split; [ destruct s as [ab nd]; destruct nd; reflexivity | ].
    intros e He. rewrite Accounts_modals in He.
    destruct s as [ab [|]]; simpl in He;
      [ destruct He as [<- | []]; split; reflexivity | destruct He ].
  - split; [ destruct s as [[|]]; reflexivity | ].
    intros e He. rewrite Addresses_modals in He.
    destruct s as [[|]]; simpl in He;
      [ destruct He as [<- | []]; split; reflexivity | destruct He ].
  - split; [ destruct s as [[|] [|]]; reflexivity | ].
    intros e He.
    rewrite Contracts_modals, Contracts_add_dialogs_twice,
      Contracts_deploy_dialogs in He.
    destruct s as [[|] [|]]; simpl in He;
      repeat (destruct He as [<- | He];
              [ first [ left; split; reflexivity | right; split; reflexivity ] | ]);
      destruct He.
Qed.

(** With the deploy dialog open, the dialog receives the store's
    accounts, not the contracts the view lists. *)
Lemma store_slices_reach_list_and_dialogs_deploy :
  dialogWith DeployContract "accounts" Sample.entries
    (VElem (F := Contracts.Handler) DeployContract
       [ ("accounts", VObj Sample.entries);
         ("onClose", VFun Contracts.onDeployContractClose) ] []).
Proof.
  pose (st := {| Store.personal :=
                   {| Store.accounts := Sample.entries; Store.hasAccounts := true;
                      Store.contacts := ∅; Store.hasContacts := false;
                      Store.contracts := ∅; Store.hasContracts := false |};
                 Store.balances := {| Store.Balances.balances := ∅ |} |}).
  destruct (store_slices_reach_list_and_dialogs Sample.css st) as (_ & _ & Hcon).
  destruct (Hcon {| Contracts.addContract := false;
                    Contracts.deployContract := true |}) as [_ Hdialogs].
  destruct (Hdialogs
              (VElem DeployContract
                 [ ("accounts", VObj Sample.entries);
                   ("onClose", VFun Contracts.onDeployContractClose) ] []))
    as [[Htype _] | Hdeploy].
  - simpl. left. reflexivity.
  - discriminate Htype.
  - exact Hdeploy.
Defined.

(** ** Loading: class name and defaults *)

(** X7. [Loading] joins the module's class and the [className] prop with
    one space, so the [div]'s class is the module's class, a space, then
    [className]: with [className] left out (default ['']) it ends in that
    space. A prop that is given wins over its default and the others
    still fall back: with only [size] given the spinner gets that size
    times 60 and thickness 3.5, with only [thickness] given it gets size
    120 and that thickness. *)
Theorem Loading_class_and_given_props :
  forall styles,
    (forall p : Loading.Props,
       attr "className" (Loading.Loading (F := Empty_set) styles p)
         = Some (VStr (styles "loading" +:+ " " +:+ Loading.className p))) /\
    attr "className" (Loading.createElement (F := Empty_set) styles Loading.noProps)
      = Some (VStr (styles "loading" +:+ " ")) /\
    (forall size : float,
       instancesOf CircularProgress
         (Loading.createElement styles
            {| Loading.givenClassName := None; Loading.givenSize := Some size;
               Loading.givenThickness := None |})
       = [ VElem (F := Empty_set) CircularProgress
             [ ("size", VNum (size * 60)%float);
               ("thickness", VNum 3.5%float) ] [] ]) /\
    (forall thickness : float,
       instancesOf CircularProgress
         (Loading.createElement styles
            {| Loading.givenClassName := None; Loading.givenSize := None;
               Loading.givenThickness := Some thickness |})
       = [ VElem (F := Empty_set) CircularProgress
             [ ("size", VNum 120%float);
               ("thickness", VNum thickness) ] [] ]).
Proof.
  intros styles. split; [ | split; [ | split ] ].
  - intros p. reflexivity.
  - reflexivity.
  - intros size. reflexivity.
  - intros thickness. reflexivity.
Qed.

(** * Further properties of the mock helpers *)

Section MoreHelpersFacts.
Variable ENDPOINT : string.

Lemma take_none s r ics :
  Forall (fun j => Nock.matches s r j = false) ics -> Nock.take s r ics = None.
Proof.
  induction 1 as [ | j ics Hj _ IH ]; simpl; [ reflexivity | ].
  rewrite Hj, IH. reflexivity.
Qed.

Lemma mockpost_is_postScope ds :
  Helpers.mockpost ENDPOINT ds = postScope ENDPOINT ds None.
Proof. apply mockpost_registers. Qed.

(** Serving a POST from a scope of [mockpost] that has already recorded
    [recorded]. *)
Lemma postScope_answers pre (d : Helpers.Descriptor) post body recorded :
  Forall (fun d' => Helpers.path d' <> Helpers.path d) pre ->
  Nock.serve (postOf ENDPOINT d body)
    (postScope ENDPOINT (pre ++ d :: post) recorded)
  = Some (answerOf d,
          postScope ENDPOINT (pre ++ post)
            (Some (<[Helpers.path d := body]> (default ∅ recorded)))).
Proof.
  intros Hpre. unfold Nock.serve, postScope, postOf.
  cbn [Nock.interceptors]. rewrite !map_app. cbn [map].
  rewrite take_first;
    [ reflexivity
    | eapply other_paths_do_not_match; [ | reflexivity | exact Hpre ];
      reflexivity
    | apply matches_same; reflexivity ].
Qed.
End MoreHelpersFacts.

(** X8. The status a helper answers with is never 0: a descriptor whose
    [code] is 0 is answered with 200, like one without [code], and any
    other code is answered as given; [mockget] and [mockpost] agree on
    it. (The descriptor is the first of its path in the list.) *)
Theorem falsy_code_is_answered_200 :
  forall ENDPOINT pre (d : Helpers.Descriptor) post body,
    Forall (fun d' => Helpers.path d' <> Helpers.path d) pre ->
    exists got posted scope scope',
      Nock.serve (getOf ENDPOINT d)
        (Helpers.mockget ENDPOINT (pre ++ d :: post)) = Some (got, scope) /\
      Nock.serve (postOf ENDPOINT d body)
        (Helpers.mockpost ENDPOINT (pre ++ d :: post)) = Some (posted, scope') /\
      Nock.status got = Nock.status posted /\
      Nock.status got <> 0%Z /\
      (Helpers.code d = None \/ Helpers.code d = Some 0%Z ->
       Nock.status got = 200%Z) /\
      (forall c, Helpers.code d = Some c -> c <> 0%Z -> Nock.status got = c).
Proof.
  intros ENDPOINT pre d post body Hpre.
  eexists _, _, _, _.
  split; [ apply (mockget_answers ENDPOINT pre d post JNull Hpre) | ].
  split; [ apply (mockpost_answers ENDPOINT pre d post body Hpre) | ].
  cbn [Nock.status]. unfold Helpers.codeOrDefault.
  split; [ reflexivity | ].
  destruct (Helpers.code d) as [c | ]; [ destruct (Z.eqb_spec c 0) | ];
    (split; [ | split ]);
    first [ discriminate | intuition congruence ].
Qed.

(** A descriptor with [code: 0]. *)
Lemma falsy_code_is_answered_200_zero :
  exists got scope,
    Nock.serve
      (getOf "https://shapeshift.io"
         {| Helpers.path := "rate"; Helpers.code := Some 0%Z;
            Helpers.reply := JNull |})
      (Helpers.mockget "https://shapeshift.io"
         [ {| Helpers.path := "rate"; Helpers.code := Some 0%Z;
              Helpers.reply := JNull |} ]) = Some (got, scope) /\
    Nock.status got = 200%Z.
Proof.
  destruct (falsy_code_is_answered_200 "https://shapeshift.io" []
              {| Helpers.path := "rate"; Helpers.code := Some 0%Z;
                 Helpers.reply := JNull |} [] JNull (List.Forall_nil _))
    as (got & posted & scope & scope' & Hget & _ & _ & _ & H200 & _).
  exists got, scope. split; [ exact Hget | ].
  apply H200. right. reflexivity.
Defined.

(** X9. A request for a path is answered by the first descriptor of the
    list with that path, with that descriptor's reply, and uses it up:
    the scope left is the one the remaining descriptors would have
    built, in their order. [mockget] leaves [scope.body] unset; a POST
    adds the request body to [scope.body] under the descriptor's path
    and keeps what was recorded before under other paths. *)
Theorem first_descriptor_of_a_path_answers_once :
  forall ENDPOINT pre (d : Helpers.Descriptor) post body recorded,
    Forall (fun d' => Helpers.path d' <> Helpers.path d) pre ->
    Nock.serve (getOf ENDPOINT d) (Helpers.mockget ENDPOINT (pre ++ d :: post))
      = Some (answerOf d, Helpers.mockget ENDPOINT (pre ++ post)) /\
    Nock.body (Helpers.mockget ENDPOINT (pre ++ post)) = None /\
    Helpers.mockpost ENDPOINT (pre ++ d :: post)
      = postScope ENDPOINT (pre ++ d :: post) None /\
    (exists recorded',
        Nock.serve (postOf ENDPOINT d body)
          (postScope ENDPOINT (pre ++ d :: post) recorded)
          = Some (answerOf d, postScope ENDPOINT (pre ++ post) (Some recorded')) /\
        recorded' !! Helpers.path d = Some body /\
        (forall other, other <> Helpers.path d ->
           recorded' !! other = recorded ≫= (fun r => r !! other))).
Proof.
  intros ENDPOINT pre d post body recorded Hpre.
  split; [ apply (mockget_answers ENDPOINT pre d post JNull Hpre) | ].
  split; [ rewrite mockget_registers; reflexivity | ].
  split; [ apply mockpost_is_postScope | ].
  eexists. split; [ apply (postScope_answers ENDPOINT pre d post body _ Hpre) | ].
  split; [ apply lookup_insert_eq | ].
  intros other Hother. rewrite lookup_insert_ne by congruence.
  destruct recorded; [ reflexivity | apply lookup_empty ].
Qed.

(** Two descriptors of one path: the first request is answered by the
    first. *)
Lemma first_descriptor_of_a_path_answers_once_twice :
  Nock.serve
    (getOf "https://shapeshift.io"
       {| Helpers.path := "rate"; Helpers.code := None;
          Helpers.reply := JStr "first" |})
    (Helpers.mockget "https://shapeshift.io"
       [ {| Helpers.path := "rate"; Helpers.code := None;
            Helpers.reply := JStr "first" |};
         {| Helpers.path := "rate"; Helpers.code := Some 500%Z;
            Helpers.reply := JStr "second" |} ])
  = Some ({| Nock.status := 200; Nock.data := JStr "first" |},
          Helpers.mockget "https://shapeshift.io"
            [ {| Helpers.path := "rate"; Helpers.code := Some 500%Z;
                 Helpers.reply := JStr "second" |} ]).
Proof.
  exact (proj1 (first_descriptor_of_a_path_answers_once "https://shapeshift.io"
                  []
                  {| Helpers.path := "rate"; Helpers.code := None;
                     Helpers.reply := JStr "first" |}
                  [ {| Helpers.path := "rate"; Helpers.code := Some 500%Z;
                       Helpers.reply := JStr "second" |} ]
                  JNull None (List.Forall_nil _))).
Defined.

(** X10. Two descriptors with different paths given to [mockpost] can be
    posted to in either order: each request gets its own descriptor's
    answer, and after both the scope has no interceptor left and
    [scope.body] holds both request bodies, each under its path. *)
Theorem posts_in_either_order :
  forall ENDPOINT (d1 d2 : Helpers.Descriptor) body1 body2,
    Helpers.path d1 <> Helpers.path d2 ->
    let both (first second : Nock.Request) :=
      '(a, s) ← Nock.serve first (Helpers.mockpost ENDPOINT [ d1; d2 ]);
      '(a', s') ← Nock.serve second s;
      Some (a, a', s') in
    let final :=
      postScope ENDPOINT []
        (Some (<[Helpers.path d2 := body2]> {[ Helpers.path d1 := body1 ]})) in
    both (postOf ENDPOINT d1 body1) (postOf ENDPOINT d2 body2)
      = Some (answerOf d1, answerOf d2, final) /\
    both (postOf ENDPOINT d2 body2) (postOf ENDPOINT d1 body1)
      = Some (answerOf d2, answerOf d1, final).
Proof.
  intros ENDPOINT d1 d2 body1 body2 Hne both final. subst both final.
  rewrite mockpost_is_postScope. split.
  - pose proof (postScope_answers ENDPOINT [] d1 [ d2 ] body1 None
                  (List.Forall_nil _)) as Hfirst.
    pose proof (postScope_answers ENDPOINT [] d2 [] body2
                  (Some (<[Helpers.path d1 := body1]> ∅))
                  (List.Forall_nil _)) as Hsecond.
    cbn [app default] in Hfirst, Hsecond.
    rewrite Hfirst. cbn [mbind option_bind]. rewrite Hsecond.
    rewrite insert_empty. reflexivity.
  - pose proof (postScope_answers ENDPOINT [ d1 ] d2 [] body2 None) as Hfirst.
    pose proof (postScope_answers ENDPOINT [] d1 [] body1
                  (Some (<[Helpers.path d2 := body2]> ∅))
                  (List.Forall_nil _)) as Hsecond.
    cbn [app default] in Hfirst, Hsecond.
    rewrite Hfirst by (repeat constructor; exact Hne).
    cbn [mbind option_bind]. rewrite Hsecond.
    simpl. rewrite insert_insert_ne by congruence.
    rewrite insert_empty. reflexivity.
Qed.

(** Posting to [shift], registered second, before [send]. *)
Lemma posts_in_either_order_shift_then_send :
  let send := {| Helpers.path := "send"; Helpers.code := Some 201%Z;
                 Helpers.reply := JObj [ ("ok", JBool true) ] |} in
  let shift := {| Helpers.path := "shift"; Helpers.code := None;
                  Helpers.reply := JNull |} in
  ('(a, s) ← Nock.serve (postOf "https://shapeshift.io" shift (JStr "b"))
               (Helpers.mockpost "https://shapeshift.io" [ send; shift ]);
   '(a', s') ← Nock.serve (postOf "https://shapeshift.io" send (JStr "a")) s;
   Some (a, a', s'))
  = Some (answerOf shift, answerOf send,
          postScope "https://shapeshift.io" []
            (Some (<["shift" := JStr "b"]> {[ "send" := JStr "a" ]}))).
Proof.
  refine (proj2 (posts_in_either_order "https://shapeshift.io"
                   {| Helpers.path := "send"; Helpers.code := Some 201%Z;
                      Helpers.reply := JObj [ ("ok", JBool true) ] |}
                   {| Helpers.path := "shift"; Helpers.code := None;
                      Helpers.reply := JNull |}
                   (JStr "a") (JStr "b") _)).
  simpl. discriminate.
Defined.

Lemma no_match_not_served (r : Nock.Request) (s : Nock.Scope) :
  Forall (fun j => Nock.matches s r j = false) (Nock.interceptors s) ->
  Nock.serve r s = None.
Proof. intros Hnone. unfold Nock.serve. rewrite take_none by exact Hnone. reflexivity. Qed.

Lemma matches_other_verb s r i :
  Nock.verb i <> Nock.method r -> Nock.matches s r i = false.
Proof.
  intros Hne. unfold Nock.matches.
  rewrite bool_decide_eq_false_2 by exact Hne. reflexivity.
Qed.

Lemma matches_other_host s r i :
  Nock.host r <> Nock.basePath s -> Nock.matches s r i = false.
Proof.
  intros Hne. unfold Nock.matches.
  replace (String.eqb (Nock.basePath s) (Nock.host r)) with false
    by (symmetry; apply String.eqb_neq; congruence).
  rewrite andb_false_r. reflexivity.
Qed.

(** X11. A scope built by a helper serves nothing else than what was
    registered: a request with the other verb (a POST to a [mockget]
    scope, a GET to a [mockpost] scope), to another host than the
    endpoint, or for a path that no descriptor of the list has, is not
    answered; in particular an empty list of descriptors answers
    nothing. *)
Theorem unregistered_requests_are_not_served :
  forall ENDPOINT ds (r : Nock.Request),
    (Nock.method r = Nock.POST \/ Nock.host r <> ENDPOINT \/
     (forall d, In d ds -> "/" +:+ Helpers.path d <> Nock.path r) ->
     Nock.serve r (Helpers.mockget ENDPOINT ds) = None) /\
    (Nock.method r = Nock.GET \/ Nock.host r <> ENDPOINT \/
     (forall d, In d ds -> "/" +:+ Helpers.path d <> Nock.path r) ->
     Nock.serve r (Helpers.mockpost ENDPOINT ds) = None) /\
    Nock.serve r (Helpers.mockget ENDPOINT []) = None /\
    Nock.serve r (Helpers.mockpost ENDPOINT []) = None.
Proof.
  intros ENDPOINT ds r. split; [ | split; [ | split; reflexivity ] ].
  - intros Hwhy. apply no_match_not_served.
    rewrite mockget_registers. cbn [Nock.interceptors].
    apply Forall_map, List.Forall_forall. intros d Hd.
    destruct Hwhy as [Hverb | [Hhost | Hpath]].
    + apply matches_other_verb. rewrite Hverb. discriminate.
    + apply matches_other_host. exact Hhost.
    + apply matches_other_path. exact (Hpath d Hd).
  - intros Hwhy. apply no_match_not_served.
    rewrite mockpost_registers. cbn [Nock.interceptors].
    apply Forall_map, List.Forall_forall. intros d Hd.
    destruct Hwhy as [Hverb | [Hhost | Hpath]].
    + apply matches_other_verb. rewrite Hverb. discriminate.
    + apply matches_other_host. exact Hhost.
    + apply matches_other_path. exact (Hpath d Hd).
Qed.

(** A POST of a path that was registered with [mockget] is not served. *)
Lemma unregistered_requests_are_not_served_post_to_get :
  Nock.serve
    {| Nock.method := Nock.POST; Nock.host := "https://shapeshift.io";
       Nock.path := "/rate"; Nock.payload := JNull |}
    (Helpers.mockget "https://shapeshift.io"
       [ {| Helpers.path := "rate"; Helpers.code := None;
            Helpers.reply := JObj [ ("rate", JNum 1%float) ] |} ])
  = None.
Proof.
  apply (proj1 (unregistered_requests_are_not_served "https://shapeshift.io"
                  [ {| Helpers.path := "rate"; Helpers.code := None;
                       Helpers.reply := JObj [ ("rate", JNum 1%float) ] |} ]
                  {| Nock.method := Nock.POST;
                     Nock.host := "https://shapeshift.io";
                     Nock.path := "/rate"; Nock.payload := JNull |})).
  left. reflexivity.
Defined.
